(** * reproca: the TypeScript client

    A shallow embedding of [reproca.ts] (class [Reproca], method
    [call_method]) and of the reactive hooks [useMethodSignal] and
    [useMethod] of [forReact/signalHooks.ts] and of their preact twin.

    Integers are [Z]; JavaScript strings are [string]; an object literal
    with optional fields is a record of [option]s; an [async] function is
    a computation in a small monad that threads the list of network
    requests issued so far and ends either normally or by a thrown value. *)

From Stdlib Require Import ZArith List String Bool Lia Permutation.
Import ListNotations.

Local Open Scope string_scope.
Local Open Scope list_scope.
Local Open Scope Z_scope.
Set Warnings "-register-all".

(* ================================================================== *)
(** ** JavaScript values the client handles *)

Module Js.

(** The constructors an [instanceof] test of the client can meet.
    The three [Reproca*] classes are declared at [reproca.ts:1-3]. *)
Inductive ErrorClass : Type :=
| TypeError
| SyntaxError
| AbortError
| RangeError
| PlainError
| ReprocaUnauthorizedError
| ReprocaServerError
| ReprocaProtocolError.

Record Error : Type := mkError {
  error_class : ErrorClass;
  message : string
}.

(** [new C()] with no argument: empty message. *)
Definition new (c : ErrorClass) : Error :=
  {| error_class := c; message := EmptyString |}.

(** [e instanceof TypeError]. None of the other classes above derives
    from [TypeError]. *)
Definition instanceof_TypeError (e : Error) : bool :=
  match error_class e with
  | TypeError => true
  | _ => false
  end.

(** A JSON document, as [JSON.parse] produces and [JSON.stringify]
    consumes. *)
Inductive json : Type :=
| JNull
| JBool (b : bool)
| JNumber (z : Z)
| JString (s : string)
| JArray (items : list json)
| JObject (fields : list (string * json)).

(** How a statement or call ends. *)
Inductive completion (A : Type) : Type :=
| Normal (a : A)
| Abrupt (e : Error).
Arguments Normal {A} a.
Arguments Abrupt {A} e.

Definition returned {A : Type} (c : completion A) : option A :=
  match c with
  | Normal a => Some a
  | Abrupt _ => None
  end.

End Js.

Import Js.

(* ================================================================== *)
(** ** The fetch layer *)

Record Request : Type := mkRequest {
  url : string;
  method : string;
  headers : list (string * string);
  body : string
}.

Record Response : Type := mkResponse {
  status : Z;
  response_body : string
}.

(** [response.ok] of the Fetch standard: the status is in 200..299. *)
Definition response_ok (r : Response) : bool :=
  (200 <=? status r) && (status r <=? 299).

(** What the host platform supplies to [call_method]: the two JSON
    built-ins and the network. [network n req] is what the [n]-th exchange
    of the run (counted from 0) does when it carries [req]: a response, or
    the value [fetch] rejects with. *)
Class Platform : Type := {
  JSON_stringify : json -> string;
  JSON_parse : string -> completion json;
  network : nat -> Request -> completion Response
}.

(** An [async] computation: it reads and extends the list of requests sent
    so far and completes normally or abruptly. *)
Definition Async (A : Type) : Type :=
  list Request -> completion A * list Request.

Definition ret {A : Type} (a : A) : Async A :=
  fun sent => (Normal a, sent).

Definition throw {A : Type} (e : Error) : Async A :=
  fun sent => (Abrupt e, sent).

Definition bind {A B : Type} (c : Async A) (k : A -> Async B) : Async B :=
  fun sent =>
    match c sent with
    | (Normal a, sent') => k a sent'
    | (Abrupt e, sent') => (Abrupt e, sent')
    end.

(** [try { c } catch (e) { handler e }]. *)
Definition try_catch {A : Type} (c : Async A) (handler : Error -> Async A)
  : Async A :=
  fun sent =>
    match c sent with
    | (Normal a, sent') => (Normal a, sent')
    | (Abrupt e, sent') => handler e sent'
    end.

Declare Scope async_scope.
Delimit Scope async_scope with async.
Notation "x <- c ;; k" := (bind c (fun x => k))
  (at level 61, c at next level, right associativity) : async_scope.

(** [await fetch(url, init)]: one exchange, appended to the requests sent. *)
Definition fetch `{Platform} (req : Request) : Async Response :=
  fun sent => (network (List.length sent) req, sent ++ [req]).

(** [await response.json()]. *)
Definition response_json `{Platform} (r : Response) : Async json :=
  fun sent => (JSON_parse (response_body r), sent).

(* ================================================================== *)
(** ** reproca.ts *)

(** [ReprocaMethodResponse<T>] (reproca.ts:5-13): an object with the
    optional fields [ok] and [err]. *)
Record ReprocaMethodResponse (T : Type) : Type := mkResult {
  ok : option T;
  err : option Error
}.
Arguments mkResult {T} ok err.
Arguments ok {T} r.
Arguments err {T} r.

(** The object literals [{ ok: v }] and [{ err: e }]. *)
Definition ok_result {T : Type} (v : T) : ReprocaMethodResponse T :=
  {| ok := Some v; err := None |}.
Definition err_result {T : Type} (e : Error) : ReprocaMethodResponse T :=
  {| ok := None; err := Some e |}.

(** [class Reproca] (reproca.ts:15-19). *)
Record Reproca : Type := mkReproca { host : string }.

(** [call_method] (reproca.ts:21-50). The [try] block either binds
    [response] or leaves the function through the [catch] clause; the sum
    type carries which. *)
Definition call_method `{Platform} (this : Reproca) (path : string)
  (params : json) : Async (ReprocaMethodResponse json) :=
  (attempt <-
     try_catch
       (response <-
          fetch {| url := (host this ++ path)%string;
                   method := "POST";
                   headers := [("Content-Type", "application/json")];
                   body := JSON_stringify params |} ;;
        ret (inr response))
       (fun e =>
          if instanceof_TypeError e
          then ret (inl (err_result e))
          else throw e) ;;
   match attempt with
   | inl early => ret early
   | inr response =>
       if response_ok response then
         (payload <- response_json response ;;
          ret (ok_result payload))
       else if status response =? 400 then
         ret (err_result (new ReprocaProtocolError))
       else if status response =? 401 then
         ret (err_result (new ReprocaUnauthorizedError))
       else
         ret (err_result (new ReprocaServerError))
   end)%async.

(** What [JSON.stringify(params)] (reproca.ts:32) does with a value of type
    [object]: a JSON document gives its text; a value that holds a cycle
    or a BigInt makes it throw a [TypeError]; a [toJSON] method that throws
    makes it throw that value. (A function, for which it returns
    [undefined], is left out.) *)
Inductive Params : Type :=
| Document (j : json)
| Unserialisable (thrown : Error).

Definition stringify `{Platform} (params : Params) : Async string :=
  match params with
  | Document j => ret (JSON_stringify j)
  | Unserialisable thrown => throw thrown
  end.

(** [call_method] (reproca.ts:21-50) once more, for any [params] of type
    [object]: the argument [JSON.stringify(params)] is evaluated inside the
    [try] block, before [fetch] is called, and what it throws goes through
    the [catch] clause as well. On a JSON document this is [call_method]
    above. *)
Definition call_method_any `{Platform} (this : Reproca) (path : string)
  (params : Params) : Async (ReprocaMethodResponse json) :=
  (attempt <-
     try_catch
       (text <- stringify params ;;
        response <-
          fetch {| url := (host this ++ path)%string;
                   method := "POST";
                   headers := [("Content-Type", "application/json")];
                   body := text |} ;;
        ret (inr response))
       (fun e =>
          if instanceof_TypeError e
          then ret (inl (err_result e))
          else throw e) ;;
   match attempt with
   | inl early => ret early
   | inr response =>
       if response_ok response then
         (payload <- response_json response ;;
          ret (ok_result payload))
       else if status response =? 400 then
         ret (err_result (new ReprocaProtocolError))
       else if status response =? 401 then
         ret (err_result (new ReprocaUnauthorizedError))
       else
         ret (err_result (new ReprocaServerError))
   end)%async.

(* ================================================================== *)
(** ** The host frameworks

    The hooks call hook primitives imported from three packages. A hook
    primitive keeps its state on the component its own framework is
    rendering; called while another framework renders, it finds none and
    throws. *)

Module Framework.

(** Where a hook primitive is imported from. *)
Inductive Package : Type :=
| pkg_react              (* "react": useEffect, useState *)
| pkg_preact_hooks       (* "preact/hooks": useEffect, useState *)
| pkg_preact_signals.    (* "@preact/signals": useSignal, a preact hook *)

(** What renders the component that calls the hook. *)
Inductive Renderer : Type :=
| ReactDOM               (* React; "react" is React *)
| PreactRender           (* preact; "react" is React, not rendering *)
| PreactAliased.         (* preact, with "react" aliased to preact/compat *)

Definition serves (r : Renderer) (p : Package) : bool :=
  match r, p with
  | ReactDOM, pkg_react => true
  | ReactDOM, (pkg_preact_hooks | pkg_preact_signals) => false
  | PreactRender, pkg_react => false
  | PreactRender, (pkg_preact_hooks | pkg_preact_signals) => true
  | PreactAliased, _ => true
  end.

(** The component that calls the hook: its renderer, and whether its
    render reads [state.value], which subscribes it to the signal. *)
Record Component : Type := mkComponent {
  renderer : Renderer;
  reads_signal : bool
}.

(** [DependencyList] of react, [Inputs] of preact. *)
Definition DependencyList : Type := list json.

End Framework.

Import Framework.

(* ================================================================== *)
(** ** The event loop the hooks run in

    One instance of one component, its clock, its timers and the promises
    of the producer calls that have not settled yet. The cell type [C] is
    whatever the host framework hands the hook as state container. An
    instance is mounted once and torn down once; a remount is another
    instance. Every value a producer call is fulfilled with is taken to be
    a fresh object, as the results of [call_method] are. *)

Module Loop.

(** A timer created by [setTimeout(fetch, delay)]. Every timer of a binding
    has the same callback, the binding's own [fetch]. *)
Record Timer : Type := mkTimer {
  timer_id : nat;
  due : Z
}.

(** The closure [() => clearTimeout(id)]. *)
Inductive Cleanup : Type :=
| ClearTimeout (id : nat).

(** What the binding does, in the order it does it. *)
Inductive Action (T : Type) : Type :=
| Invoked (k : nat)
| Published (value : ReprocaMethodResponse T)
| TimerSet (id : nat) (at_time : Z)
| TimerFired (id : nat)
| TimerCleared (id : nat).
Arguments Invoked {T} k.
Arguments Published {T} value.
Arguments TimerSet {T} id at_time.
Arguments TimerFired {T} id.
Arguments TimerCleared {T} id.

(** The promise returned by the [k]-th call of the producer, with the way
    it will settle: fulfilled with a result, or rejected. *)
Record Promise (T : Type) : Type := mkPromise {
  call_index : nat;
  settlement : completion (ReprocaMethodResponse T)
}.
Arguments mkPromise {T} call_index settlement.
Arguments call_index {T} p.
Arguments settlement {T} p.

Record World (T C : Type) : Type := mkWorld {
  now : Z;                             (* the clock, in milliseconds *)
  cell : C;                            (* the hook's state container *)
  timers : list Timer;                 (* pending timers, oldest first *)
  next_timer : nat;                    (* the next timer id *)
  calls : nat;                         (* producer calls made so far *)
  pending : list (Promise T);          (* calls not settled yet *)
  effect_cleanup : option Cleanup;     (* what useEffect keeps of the effect *)
  mounted : bool;                      (* the owning scope is alive *)
  torn_down : bool;                    (* the owning scope has been removed *)
  trace : list (Z * Action T)          (* time-stamped, oldest first *)
}.
Arguments mkWorld {T C}.
Arguments now {T C} w.
Arguments cell {T C} w.
Arguments timers {T C} w.
Arguments next_timer {T C} w.
Arguments calls {T C} w.
Arguments pending {T C} w.
Arguments effect_cleanup {T C} w.
Arguments mounted {T C} w.
Arguments torn_down {T C} w.
Arguments trace {T C} w.

Definition set_cell {T C D : Type} (c : D) (w : World T C) : World T D :=
  mkWorld (now w) c (timers w) (next_timer w) (calls w) (pending w)
          (effect_cleanup w) (mounted w) (torn_down w) (trace w).

Definition set_now {T C : Type} (t : Z) (w : World T C) : World T C :=
  mkWorld t (cell w) (timers w) (next_timer w) (calls w) (pending w)
          (effect_cleanup w) (mounted w) (torn_down w) (trace w).

Definition set_timers {T C : Type} (l : list Timer) (w : World T C)
  : World T C :=
  mkWorld (now w) (cell w) l (next_timer w) (calls w) (pending w)
          (effect_cleanup w) (mounted w) (torn_down w) (trace w).

Definition set_pending {T C : Type} (l : list (Promise T)) (w : World T C)
  : World T C :=
  mkWorld (now w) (cell w) (timers w) (next_timer w) (calls w) l
          (effect_cleanup w) (mounted w) (torn_down w) (trace w).

Definition set_effect_cleanup {T C : Type} (c : option Cleanup)
  (w : World T C) : World T C :=
  mkWorld (now w) (cell w) (timers w) (next_timer w) (calls w) (pending w)
          c (mounted w) (torn_down w) (trace w).

Definition set_mounted {T C : Type} (b : bool) (w : World T C) : World T C :=
  mkWorld (now w) (cell w) (timers w) (next_timer w) (calls w) (pending w)
          (effect_cleanup w) b (torn_down w) (trace w).

Definition set_torn_down {T C : Type} (b : bool) (w : World T C)
  : World T C :=
  mkWorld (now w) (cell w) (timers w) (next_timer w) (calls w) (pending w)
          (effect_cleanup w) (mounted w) b (trace w).

Definition log {T C : Type} (a : Action T) (w : World T C) : World T C :=
  mkWorld (now w) (cell w) (timers w) (next_timer w) (calls w) (pending w)
          (effect_cleanup w) (mounted w) (torn_down w)
          (trace w ++ [(now w, a)]).

(** [method()]: the producer is called once more; its promise is pending. *)
Definition call_producer {T C : Type}
  (producer : nat -> completion (ReprocaMethodResponse T)) (w : World T C)
  : World T C :=
  let k := calls w in
  log (Invoked k)
      (mkWorld (now w) (cell w) (timers w) (next_timer w) (S k)
               (pending w ++ [mkPromise k (producer k)])
               (effect_cleanup w) (mounted w) (torn_down w) (trace w)).

(** The delay a timer is given (HTML, timer initialisation steps): the
    number is converted to a 32-bit signed integer, and a negative one
    counts as 0. From 1 to 2147483647 the delay is the number itself. *)
Definition to_int32 (z : Z) : Z :=
  (z + 2147483648) mod 4294967296 - 2147483648.

Definition timer_delay (z : Z) : Z := Z.max 0 (to_int32 z).

(** [setTimeout(fetch, delay)]. Returns the timer id. *)
Definition setTimeout {T C : Type} (delay : Z) (w : World T C)
  : nat * World T C :=
  let id := next_timer w in
  let at_time := now w + timer_delay delay in
  (id,
   log (TimerSet id at_time)
       (mkWorld (now w) (cell w) (timers w ++ [mkTimer id at_time]) (S id)
                (calls w) (pending w) (effect_cleanup w) (mounted w)
                (torn_down w) (trace w))).

(** [clearTimeout(id)]. *)
Definition clearTimeout {T C : Type} (id : nat) (w : World T C) : World T C :=
  log (TimerCleared id)
      (set_timers (filter (fun tm => negb (Nat.eqb (timer_id tm) id))
                          (timers w)) w).

Definition run_cleanup {T C : Type} (c : option Cleanup) (w : World T C)
  : World T C :=
  match c with
  | Some (ClearTimeout id) => clearTimeout id w
  | None => w
  end.

(** JavaScript truthiness of an optional number and of an optional object. *)
Definition truthy_number (n : option Z) : bool :=
  match n with
  | Some z => negb (z =? 0)
  | None => false
  end.

Definition truthy_object {A : Type} (o : option A) : bool :=
  match o with
  | Some _ => true
  | None => false
  end.

(** The delay [setTimeout] reads from an optional number. *)
Definition delay_of (n : option Z) : Z :=
  match n with
  | Some z => z
  | None => 0
  end.

(** A hook as one component uses it: its initial state container, the
    function [fetch] (the effect, the timer callback and the manual
    trigger), the callback it gives to [.then], how the state it returns
    reads the container; the packages its hook primitives come from, what
    renders the component, the [deps] it passes to [useEffect], and whether
    a publication makes the mounted component render again. Both functions
    return what the JavaScript function returns. *)
Record Hook (T C : Type) : Type := mkHook {
  hook_init : C;
  hook_fetch : World T C -> World T C * option Cleanup;
  hook_then : ReprocaMethodResponse T -> World T C
              -> World T C * option Cleanup;
  hook_state : C -> option (ReprocaMethodResponse T);
  hook_imports : list Package;
  hook_renderer : Renderer;
  hook_deps : option DependencyList;
  hook_rerenders : bool
}.
Arguments mkHook {T C}.
Arguments hook_init {T C} h.
Arguments hook_fetch {T C} h w.
Arguments hook_then {T C} h value w.
Arguments hook_state {T C} h c.
Arguments hook_imports {T C} h.
Arguments hook_renderer {T C} h.
Arguments hook_deps {T C} h.
Arguments hook_rerenders {T C} h.

Inductive Event : Type :=
| Mount                 (* first commit: useEffect runs the effect *)
| DepsChange            (* a re-render whose deps differ from the last *)
| Render                (* a re-render with the deps as they were *)
| Unmount               (* the owning scope is torn down *)
| Refetch               (* the caller runs the returned fetch *)
| Settle (k : nat)      (* the promise of producer call k settles *)
| Tick (dt : Z).        (* dt milliseconds pass *)

(** The hook's body runs through only if the renderer serves every package
    its hook primitives come from; otherwise the first one that is not
    served throws and the render is lost. *)
Definition renders {T C : Type} (h : Hook T C) : bool :=
  forallb (serves (hook_renderer h)) (hook_imports h).

(** useEffect: run the effect and keep what it returns as the cleanup. *)
Definition run_effect {T C : Type} (h : Hook T C) (w : World T C)
  : World T C :=
  let (w', c) := hook_fetch h w in set_effect_cleanup c w'.

(** The mounted component renders again with the deps it had: useEffect
    runs the cleanup and the effect again when no deps were passed, and
    nothing when they were. *)
Definition rerender {T C : Type} (h : Hook T C) (w : World T C)
  : World T C :=
  if mounted w then
    match hook_deps h with
    | None => run_effect h (run_cleanup (effect_cleanup w) w)
    | Some _ => w
    end
  else w.

Definition find_promise {T : Type} (k : nat) (l : list (Promise T))
  : option (Promise T) :=
  find (fun p => Nat.eqb (call_index p) k) l.

Definition remove_promise {T : Type} (k : nat) (l : list (Promise T))
  : list (Promise T) :=
  filter (fun p => negb (Nat.eqb (call_index p) k)) l.

(** A promise settles: a fulfilled one runs the [.then] callback, whose
    return value resolves the promise [.then] returned, which nobody holds;
    a rejected one runs nothing. A publication that makes the component
    render again is followed by that render. *)
Definition settle {T C : Type} (h : Hook T C) (k : nat) (w : World T C)
  : World T C :=
  match find_promise k (pending w) with
  | Some p =>
      let w' := set_pending (remove_promise k (pending w)) w in
      match settlement p with
      | Normal value =>
          let w'' := fst (hook_then h value w') in
          if hook_rerenders h then rerender h w'' else w''
      | Abrupt _ => w'
      end
  | None => w
  end.

(** Timers fire in the order of their due time, the older first on a tie. *)
Fixpoint insert_by_due (tm : Timer) (l : list Timer) : list Timer :=
  match l with
  | [] => [tm]
  | x :: l' =>
      if due tm <=? due x then tm :: l else x :: insert_by_due tm l'
  end.

Definition sort_by_due (l : list Timer) : list Timer :=
  fold_right insert_by_due [] l.

(** A due timer fires at its due time, if it has not been cleared, and runs
    [fetch]. *)
Definition fire {T C : Type} (h : Hook T C) (tm : Timer) (w : World T C)
  : World T C :=
  if existsb (fun x => Nat.eqb (timer_id x) (timer_id tm)) (timers w) then
    let w1 := set_now (Z.max (now w) (due tm)) w in
    let w2 := set_timers
                (filter (fun x => negb (Nat.eqb (timer_id x) (timer_id tm)))
                        (timers w1)) w1 in
    fst (hook_fetch h (log (TimerFired (timer_id tm)) w2))
  else w.

Definition advance {T C : Type} (h : Hook T C) (dt : Z) (w : World T C)
  : World T C :=
  let t := now w + Z.max 0 dt in
  let due_now := sort_by_due (filter (fun tm => due tm <=? t) (timers w)) in
  set_now t (fold_left (fun w' tm => fire h tm w') due_now w).

(** The caller has [fetch] in hand once a render has returned it. *)
Definition rendered {T C : Type} (w : World T C) : bool :=
  mounted w || torn_down w.

Definition step {T C : Type} (h : Hook T C) (ev : Event) (w : World T C)
  : World T C :=
  match ev with
  | Mount =>
      if rendered w then w
      else if renders h then run_effect h (set_mounted true w)
      else w
  | DepsChange =>
      if mounted w
      then run_effect h (run_cleanup (effect_cleanup w) w)
      else w
  | Render => rerender h w
  | Unmount =>
      if mounted w
      then set_torn_down true
             (set_mounted false
                (set_effect_cleanup None
                   (run_cleanup (effect_cleanup w) w)))
      else w
  | Refetch => if rendered w then fst (hook_fetch h w) else w
  | Settle k => settle h k w
  | Tick dt => advance h dt w
  end.

Definition run {T C : Type} (h : Hook T C) (evs : list Event) (w : World T C)
  : World T C :=
  fold_left (fun w' ev => step h ev w') evs w.

(** The component before its first commit. *)
Definition initial {T C : Type} (h : Hook T C) : World T C :=
  mkWorld 0 (hook_init h) [] 0%nat 0%nat [] None false false [].

(** The state the hook's caller observes. *)
Definition observed {T C : Type} (h : Hook T C) (w : World T C)
  : option (ReprocaMethodResponse T) :=
  hook_state h (cell w).

(** The times at which the producer was called, oldest first. *)
Definition invocation_times {T C : Type} (w : World T C) : list Z :=
  flat_map (fun e => match snd e with
                     | Invoked _ => [fst e]
                     | _ => []
                     end) (trace w).

Definition publications {T C : Type} (w : World T C)
  : list (ReprocaMethodResponse T) :=
  flat_map (fun e => match snd e with
                     | Published v => [v]
                     | _ => []
                     end) (trace w).

End Loop.

Import Loop.

(* ================================================================== *)
(** ** The state primitives of the host frameworks *)

(** [@preact/signals]: [useSignal(init)] gives an object whose [value]
    field is assigned to. The object outlives the component. It is a
    preact hook: called in a render that preact does not do it throws,
    which [renders] decides before the hook's body is run. *)
Module Signals.

Record Signal (A : Type) : Type := mkSignal { value : A }.
Arguments mkSignal {A} value.
Arguments value {A} s.

Definition useSignal {A : Type} (init : A) : Signal A := mkSignal init.

(** [state.value = v]. *)
Definition assign_value {T : Type} (v : ReprocaMethodResponse T)
  (w : World T (Signal (option (ReprocaMethodResponse T))))
  : World T (Signal (option (ReprocaMethodResponse T))) :=
  log (Published v) (set_cell (mkSignal (Some v)) w).

End Signals.

(** [useState(init)] of [react] and of [preact/hooks]: a slot of the
    mounted component that holds the state and that [setState] replaces.
    A [setState] that arrives when the component is not mounted is
    dropped. *)
Module StateHook.

Record Slot (A : Type) : Type := mkSlot { state : A }.
Arguments mkSlot {A} state.
Arguments state {A} s.

Definition useState {A : Type} (init : A) : Slot A := mkSlot init.

(** [setState(v)]. *)
Definition setState {T : Type} (v : ReprocaMethodResponse T)
  (w : World T (Slot (option (ReprocaMethodResponse T))))
  : World T (Slot (option (ReprocaMethodResponse T))) :=
  log (Published v)
      (if mounted w then set_cell (mkSlot (Some v)) w else w).

End StateHook.

Module ForReact.
Import Signals StateHook.

Section Hooks.
Context {T : Type}.
Variable component : Component.
Variable method : nat -> completion (ReprocaMethodResponse T).
Variable deps : option DependencyList.
Variable reload : option Z.

(** The arrow function given to [.then] in [useMethodSignal]
    (signalHooks.ts:12-19). *)
Definition useMethodSignal_then (value : ReprocaMethodResponse T)
  (w : World T (Signal (option (ReprocaMethodResponse T))))
  : World T (Signal (option (ReprocaMethodResponse T))) * option Cleanup :=
  let w1 := assign_value value w in
  if truthy_number reload && truthy_object (err value) then
    let (id, w2) := setTimeout (delay_of reload) w1 in
    (w2, Some (ClearTimeout id))
  else
    (w1, None).

(** [function fetch()] of [useMethodSignal] (signalHooks.ts:11-20): the
    promise [.then] returns is dropped and the function has no [return]. *)
Definition useMethodSignal_fetch
  (w : World T (Signal (option (ReprocaMethodResponse T))))
  : World T (Signal (option (ReprocaMethodResponse T))) * option Cleanup :=
  (call_producer method w, None).

(** [useMethodSignal] (signalHooks.ts:5-23): [useSignal] comes from
    [@preact/signals] (line 1), [useEffect] from [react] (line 2). *)
Definition useMethodSignal
  : Hook T (Signal (option (ReprocaMethodResponse T))) :=
  mkHook (useSignal None) useMethodSignal_fetch useMethodSignal_then value
         [pkg_preact_signals; pkg_react] (renderer component) deps
         (reads_signal component).

(** The arrow function given to [.then] in [useMethod]
    (signalHooks.ts:35-42). *)
Definition useMethod_then (value : ReprocaMethodResponse T)
  (w : World T (Slot (option (ReprocaMethodResponse T))))
  : World T (Slot (option (ReprocaMethodResponse T))) * option Cleanup :=
  let w1 := setState value w in
  if truthy_number reload && truthy_object (err value) then
    let (id, w2) := setTimeout (delay_of reload) w1 in
    (w2, Some (ClearTimeout id))
  else
    (w1, None).

(** [function fetch()] of [useMethod] (signalHooks.ts:34-43). *)
Definition useMethod_fetch
  (w : World T (Slot (option (ReprocaMethodResponse T))))
  : World T (Slot (option (ReprocaMethodResponse T))) * option Cleanup :=
  (call_producer method w, None).

(** [useMethod] (signalHooks.ts:28-46): [useEffect] and [useState] come
    from [react] (line 25). *)
Definition useMethod : Hook T (Slot (option (ReprocaMethodResponse T))) :=
  mkHook (useState None) useMethod_fetch useMethod_then state
         [pkg_react] (renderer component) deps true.

End Hooks.
End ForReact.

(* ================================================================== *)
(** ** The preact twin (same text, [preact/hooks] for [react]) *)

Module ForPreact.
Import Signals StateHook.

Section Hooks.
Context {T : Type}.
Variable component : Component.
Variable method : nat -> completion (ReprocaMethodResponse T).
Variable deps : option DependencyList.
Variable reload : option Z.

(** Lines 12-19 of the preact file. *)
Definition useMethodSignal_then (value : ReprocaMethodResponse T)
  (w : World T (Signal (option (ReprocaMethodResponse T))))
  : World T (Signal (option (ReprocaMethodResponse T))) * option Cleanup :=
  let w1 := assign_value value w in
  if truthy_number reload && truthy_object (err value) then
    let (id, w2) := setTimeout (delay_of reload) w1 in
    (w2, Some (ClearTimeout id))
  else
    (w1, None).

(** Lines 11-20 of the preact file. *)
Definition useMethodSignal_fetch
  (w : World T (Signal (option (ReprocaMethodResponse T))))
  : World T (Signal (option (ReprocaMethodResponse T))) * option Cleanup :=
  (call_producer method w, None).

(** [useMethodSignal] of the preact file (lines 5-23): [useSignal] comes
    from [@preact/signals], [useEffect] from [preact/hooks]. *)
Definition useMethodSignal
  : Hook T (Signal (option (ReprocaMethodResponse T))) :=
  mkHook (useSignal None) useMethodSignal_fetch useMethodSignal_then value
         [pkg_preact_signals; pkg_preact_hooks] (renderer component) deps
         (reads_signal component).

(** Lines 35-42 of the preact file. *)
Definition useMethod_then (value : ReprocaMethodResponse T)
  (w : World T (Slot (option (ReprocaMethodResponse T))))
  : World T (Slot (option (ReprocaMethodResponse T))) * option Cleanup :=
  let w1 := setState value w in
  if truthy_number reload && truthy_object (err value) then
    let (id, w2) := setTimeout (delay_of reload) w1 in
    (w2, Some (ClearTimeout id))
  else
    (w1, None).

(** Lines 34-43 of the preact file. *)
Definition useMethod_fetch
  (w : World T (Slot (option (ReprocaMethodResponse T))))
  : World T (Slot (option (ReprocaMethodResponse T))) * option Cleanup :=
  (call_producer method w, None).

(** [useMethod] of the preact file (lines 28-46): [useEffect] and
    [useState] come from [preact/hooks]. *)
Definition useMethod : Hook T (Slot (option (ReprocaMethodResponse T))) :=
  mkHook (useState None) useMethod_fetch useMethod_then state
         [pkg_preact_hooks] (renderer component) deps true.

End Hooks.
End ForPreact.

(* ================================================================== *)
(** ** The four hooks, side by side *)

Inductive Variant : Type :=
| ReactSignal      (* forReact useMethodSignal *)
| ReactState       (* forReact useMethod *)
| PreactSignal     (* preact useMethodSignal *)
| PreactState.     (* preact useMethod *)

Definition container (T : Type) (v : Variant) : Type :=
  match v with
  | ReactSignal | PreactSignal =>
      Signals.Signal (option (ReprocaMethodResponse T))
  | ReactState | PreactState =>
      StateHook.Slot (option (ReprocaMethodResponse T))
  end.

Definition hook_of {T : Type} (v : Variant) (component : Component)
  (method : nat -> completion (ReprocaMethodResponse T))
  (deps : option DependencyList) (reload : option Z)
  : Hook T (container T v) :=
  match v return Hook T (container T v) with
  | ReactSignal => ForReact.useMethodSignal component method deps reload
  | ReactState => ForReact.useMethod component method deps reload
  | PreactSignal => ForPreact.useMethodSignal component method deps reload
  | PreactState => ForPreact.useMethod component method deps reload
  end.

(** The signal of [useMethodSignal] takes a value whether or not the
    component is mounted; the slot of [useMethod] only while it is. *)
Definition keeps_after_teardown (v : Variant) : bool :=
  match v with
  | ReactSignal | PreactSignal => true
  | ReactState | PreactState => false
  end.


(* ================================================================== *)
(** ** The specification's side

    Definitions written from the words of the specification, to compare
    the code with. *)

Module Spec.

(** Section 6: [POST {host}{path}], header [Content-Type:
    application/json], body the serialized parameter object. *)
Definition outbound_request `{Platform} (host_ path : string)
  (params : json) : Request :=
  mkRequest (host_ ++ path)%string "POST"
            [("Content-Type", "application/json")] (JSON_stringify params).

(** Section 4.1: the raw transport outcome. *)
Inductive RawOutcome : Type :=
| NetworkFailure (e : Error)
| HttpResponse (status_ : Z) (body_ : string).

(** The raw outcome an exchange stands for; an exception that is not the
    fetch layer's failure is no raw outcome. *)
Definition raw_outcome (c : completion Response) : option RawOutcome :=
  match c with
  | Normal r => Some (HttpResponse (status r) (response_body r))
  | Abrupt e =>
      if instanceof_TypeError e then Some (NetworkFailure e) else None
  end.

(** Section 8's table, in the order the property lists it: network
    failure, 400, 401, any other non-2xx, 2xx with a decodable body. A 2xx
    body that does not decode is given no result. *)
Definition classify `{Platform} (o : RawOutcome)
  : option (ReprocaMethodResponse json) :=
  match o with
  | NetworkFailure e => Some (err_result e)
  | HttpResponse st b =>
      if st =? 400 then Some (err_result (new ReprocaProtocolError))
      else if st =? 401 then Some (err_result (new ReprocaUnauthorizedError))
      else if negb ((200 <=? st) && (st <=? 299))
      then Some (err_result (new ReprocaServerError))
      else match JSON_parse b with
           | Normal v => Some (ok_result v)
           | Abrupt _ => None
           end
  end.

(** Section 3: a result has exactly one of its two fields. *)
Definition exactly_one {T : Type} (r : ReprocaMethodResponse T) : Prop :=
  (exists v, ok r = Some v /\ err r = None) \/
  (exists e, ok r = None /\ err r = Some e).

(** The five outcome kinds of section 3: a network failure, or a response
    whose body decodes when its status is 2xx. *)
Definition classified_kind `{Platform} (c : completion Response) : Prop :=
  match c with
  | Abrupt e => instanceof_TypeError e = true
  | Normal r =>
      response_ok r = true -> exists v, JSON_parse (response_body r) = Normal v
  end.

End Spec.

(* ================================================================== *)
(** ** The hooks read through their state container

    What the simulation lemmas compare each hook with: the same [fetch] and
    the same [.then] callback over the state shown itself. [keeps] says
    whether the container takes a value when the component is not
    mounted. *)

Module Reference.

Definition binding_then {T : Type} (keeps : bool) (reload : option Z)
  (value : ReprocaMethodResponse T)
  (w : World T (option (ReprocaMethodResponse T)))
  : World T (option (ReprocaMethodResponse T)) * option Cleanup :=
  let w1 := log (Published value)
                (if keeps || mounted w then set_cell (Some value) w else w) in
  if truthy_number reload && truthy_object (err value) then
    let (id, w2) := setTimeout (delay_of reload) w1 in
    (w2, Some (ClearTimeout id))
  else
    (w1, None).

Definition binding {T : Type} (keeps : bool) (imports : list Package)
  (r : Renderer) (rerenders : bool)
  (producer : nat -> completion (ReprocaMethodResponse T))
  (deps : option DependencyList) (reload : option Z)
  : Hook T (option (ReprocaMethodResponse T)) :=
  mkHook None (fun w => (call_producer producer w, None))
         (binding_then keeps reload) (fun c => c)
         imports r deps rerenders.

End Reference.

(** A world with its state container replaced by the state it shows. *)
Definition view {T C : Type} (h : Hook T C) (w : World T C)
  : World T (option (ReprocaMethodResponse T)) :=
  set_cell (observed h w) w.

(** A hook read through: the reference binding with the hook's imports,
    renderer, deps and re-rendering. *)
Definition read_through {T C : Type} (h : Hook T C) (keeps : bool)
  (producer : nat -> completion (ReprocaMethodResponse T))
  (reload : option Z) : Hook T (option (ReprocaMethodResponse T)) :=
  Reference.binding keeps (hook_imports h) (hook_renderer h)
                    (hook_rerenders h) producer (hook_deps h) reload.

(* ================================================================== *)
(** ** Schedules and test doubles *)

(** One automatic round for producer call [k]: the call takes [latency]
    milliseconds to settle, then the retry delay passes. *)
Definition retry_round (latency delay : Z) (k : nat) : list Event :=
  [Tick latency; Settle k; Tick delay].

Definition retry_rounds (latency delay : Z) (n : nat) : list Event :=
  flat_map (retry_round latency delay) (seq 0 n).

(** Producers for the examples. *)
Definition always_fails : nat -> completion (ReprocaMethodResponse json) :=
  fun _ => Normal (err_result (new ReprocaServerError)).

Definition fails_once : nat -> completion (ReprocaMethodResponse json) :=
  fun k =>
    match k with
    | O => Normal (err_result (new ReprocaServerError))
    | S _ => Normal (ok_result (JNumber 5))
    end.

Definition always_succeeds : nat -> completion (ReprocaMethodResponse json) :=
  fun k => Normal (ok_result (JNumber (Z.of_nat k))).

(** A platform for the examples: a server that answers by path. *)
Definition demo_parse (s : string) : completion json :=
  if String.eqb s "5" then Normal (JNumber 5)
  else if String.eqb s "null" then Normal JNull
  else Abrupt (mkError SyntaxError "Unexpected token").

Definition demo_network (n : nat) (req : Request) : completion Response :=
  if String.eqb (url req) "http://api/five" then Normal (mkResponse 200 "5")
  else if String.eqb (url req) "http://api/html"
       then Normal (mkResponse 200 "<html>")
  else if String.eqb (url req) "http://api/bad"
       then Normal (mkResponse 400 "")
  else if String.eqb (url req) "http://api/private"
       then Normal (mkResponse 401 "")
  else if String.eqb (url req) "http://api/teapot"
       then Normal (mkResponse 418 "")
  else if String.eqb (url req) "http://api/aborted"
       then Abrupt (mkError AbortError "aborted")
  else Abrupt (mkError TypeError "Failed to fetch").

Definition demo_platform : Platform :=
  {| JSON_stringify := fun _ => "{}";
     JSON_parse := demo_parse;
     network := demo_network |}.

Definition demo_client : Reproca := mkReproca "http://api".

(** What the network does with the request of [call_method] when [sent]
    lists the requests sent before. *)
Definition exchange `{Platform} (this : Reproca) (path : string)
  (params : json) (sent : list Request) : completion Response :=
  network (List.length sent) (Spec.outbound_request (host this) path params).

(** The binding is waiting for producer call [n] to settle, [n] rounds of
    [period] milliseconds after the first call, with no timer pending. *)
Definition awaiting {T C : Type}
  (producer : nat -> completion (ReprocaMethodResponse T)) (period : Z)
  (n : nat) (w : World T C) : Prop :=
  now w = Z.of_nat n * period /\
  timers w = [] /\
  calls w = S n /\
  pending w = [mkPromise n (producer n)] /\
  mounted w = true /\
  invocation_times w = map (fun k => Z.of_nat k * period) (seq 0 (S n)).

(** The binding has settled on a result for good: nothing in flight, no
    timer pending. *)
Definition settled {T C : Type} (h : Hook T C)
  (value : ReprocaMethodResponse T) (n : nat) (w : World T C) : Prop :=
  calls w = n /\ timers w = [] /\ pending w = [] /\
  observed h w = Some value.

(* ================================================================== *)
(** ** The factory of reproca.ts *)

(** The argument of the factory: a string, or an object with a [host]. *)
Inductive HostOrOptions : Type :=
| HostString (s : string)
| Options (host_ : string).

(** [reproca(host_or_options)] (reproca.ts:57-67). *)
Definition reproca (host_or_options : HostOrOptions) : Reproca :=
  match host_or_options with
  | HostString s => mkReproca s
  | Options host_ => mkReproca host_
  end.

(* ================================================================== *)
(** ** Measures and invariants of the event loop *)

(** What the binding still has going: timers pending and calls in flight. *)
Definition outstanding {T C : Type} (w : World T C) : nat :=
  (List.length (timers w) + List.length (pending w))%nat.

(** The events that are neither a manual fetch nor a change of deps. *)
Definition automatic (ev : Event) : bool :=
  match ev with
  | Settle _ | Tick _ | Unmount | Render => true
  | Mount | DepsChange | Refetch => false
  end.

(** Where the instance is in its life. *)
Inductive Phase : Type :=
| NotMounted
| Alive
| TornDown.

Definition phase_of {T C : Type} (w : World T C) : Phase :=
  if mounted w then Alive
  else if torn_down w then TornDown
  else NotMounted.

Definition next_phase (ph : Phase) (ev : Event) : Phase :=
  match ev, ph with
  | Mount, NotMounted => Alive
  | Unmount, Alive => TornDown
  | _, _ => ph
  end.

(** Whether an event runs [fetch] from outside the retry loop when deps
    are passed: the first commit, a change of deps while alive, a manual
    call once a render has returned [fetch]. *)
Definition triggers_fetch (ph : Phase) (ev : Event) : bool :=
  match ev, ph with
  | Mount, NotMounted => true
  | DepsChange, Alive => true
  | Refetch, (Alive | TornDown) => true
  | _, _ => false
  end.

Fixpoint fetch_triggers (ph : Phase) (evs : list Event) : nat :=
  match evs with
  | [] => 0%nat
  | ev :: evs' =>
      ((if triggers_fetch ph ev then 1 else 0)
       + fetch_triggers (next_phase ph ev) evs')%nat
  end.

(** The value published last, if any. *)
Definition last_published {T C : Type} (w : World T C)
  : option (ReprocaMethodResponse T) :=
  last (map Some (publications w)) None.


(** The pending promises are those of distinct calls already made, each
    with the settlement the producer gave it. *)
Definition pending_fresh {T C : Type}
  (producer : nat -> completion (ReprocaMethodResponse T)) (w : World T C)
  : Prop :=
  NoDup (map call_index (pending w)) /\
  Forall (fun p => (call_index p < calls w)%nat /\
                   settlement p = producer (call_index p)) (pending w).

(** A producer whose third call rejects. *)
Definition rejects_third : nat -> completion (ReprocaMethodResponse json) :=
  fun k =>
    match k with
    | 2%nat => Abrupt (mkError AbortError "aborted")
    | _ => Normal (err_result (new ReprocaServerError))
    end.

(** Components for the examples. *)
Definition react_component : Component := mkComponent ReactDOM true.
Definition preact_component : Component := mkComponent PreactRender true.
Definition aliased_component : Component := mkComponent PreactAliased false.

(* ================================================================== *)
(** * Properties of [call_method] *)

Section CallMethod.
Context {P : Platform}.
Variables (this : Reproca) (path : string) (params : json).
Variable sent : list Request.

(** [call_method], one case per way the exchange and the decoding end. *)
Lemma call_method_cases :
  call_method this path params sent =
  (match exchange this path params sent with
   | Abrupt e =>
       if instanceof_TypeError e then Normal (err_result e) else Abrupt e
   | Normal response =>
       if response_ok response then
         match JSON_parse (response_body response) with
         | Normal v => Normal (ok_result v)
         | Abrupt e => Abrupt e
         end
       else if status response =? 400 then
         Normal (err_result (new ReprocaProtocolError))
       else if status response =? 401 then
         Normal (err_result (new ReprocaUnauthorizedError))
       else Normal (err_result (new ReprocaServerError))
   end,
   sent ++ [Spec.outbound_request (host this) path params]).
Proof.
  unfold call_method, bind, try_catch, fetch, ret, throw, response_json,
    exchange, Spec.outbound_request.
  destruct (network _ _) as [response | e]; cbn.
  - destruct (response_ok response); cbn.
    + destruct (JSON_parse _); reflexivity.
    + destruct (status response =? 400); [reflexivity |].
      destruct (status response =? 401); reflexivity.
  - destruct (instanceof_TypeError e); reflexivity.
Qed.

(** C1. For every raw transport outcome [call_method] returns what the
    specification's table gives, read in the order network failure, 400,
    401, other non-2xx, decodable 2xx; where the table gives nothing (an
    exception that is no network failure, a 2xx body that does not decode)
    [call_method] returns nothing. *)
Theorem call_method_classifies_as_table :
  returned (fst (call_method this path params sent)) =
  match Spec.raw_outcome (exchange this path params sent) with
  | Some o => Spec.classify o
  | None => None
  end.
Proof.
  rewrite call_method_cases. cbn [fst].
  destruct (exchange this path params sent) as [response | e]; cbn.
  - unfold response_ok.
    destruct (Z.eqb_spec (status response) 400) as [E4 | N4].
    + rewrite E4. reflexivity.
    + destruct (Z.eqb_spec (status response) 401) as [E1 | N1].
      * rewrite E1. reflexivity.
      * destruct ((200 <=? status response) && (status response <=? 299));
          cbn; [destruct (JSON_parse _) |]; reflexivity.
  - destruct (instanceof_TypeError e); reflexivity.
Qed.

(** C3. Whatever [call_method] returns has exactly one of [ok] and [err],
    and on each of the five outcome kinds it does return. *)
Theorem call_method_result_exactly_one :
  (forall r, fst (call_method this path params sent) = Normal r ->
             Spec.exactly_one r) /\
  (Spec.classified_kind (exchange this path params sent) ->
   exists r, fst (call_method this path params sent) = Normal r /\
             Spec.exactly_one r).
Proof.
  rewrite call_method_cases. cbn [fst].
  assert (Hok : forall v : json, Spec.exactly_one (ok_result v))
    by (intro v; left; exists v; split; reflexivity).
  assert (Herr : forall e, Spec.exactly_one (@err_result json e))
    by (intro e; right; exists e; split; reflexivity).
  split.
  - intros r.
    destruct (exchange this path params sent) as [response | e].
    + destruct (response_ok response).
      * destruct (JSON_parse _); [| discriminate].
        intros [= <-]. apply Hok.
      * destruct (status response =? 400); [intros [= <-]; apply Herr |].
        destruct (status response =? 401); intros [= <-]; apply Herr.
    + destruct (instanceof_TypeError e); [| discriminate].
      intros [= <-]. apply Herr.
  - unfold Spec.classified_kind.
    destruct (exchange this path params sent) as [response | e].
    + destruct (response_ok response).
      * intros Hdec. destruct (Hdec eq_refl) as [v ->]. eauto.
      * intros _. destruct (status response =? 400); [eauto |].
        destruct (status response =? 401); eauto.
    + intros ->. eauto.
Qed.

(** C7. When the exchange throws [e], [call_method] returns [{ err: e }]
    exactly when [e] is a [TypeError], and throws [e] itself exactly when
    it is not. *)
Theorem call_method_rethrows_unexpected (e : Error) :
  exchange this path params sent = Abrupt e ->
  (instanceof_TypeError e = true <->
   fst (call_method this path params sent) = Normal (err_result e)) /\
  (instanceof_TypeError e = false <->
   fst (call_method this path params sent) = Abrupt e).
Proof.
  intros He. rewrite call_method_cases. cbn [fst].
  rewrite He.
  destruct (instanceof_TypeError e); split; split;
    intros H; try reflexivity; discriminate H.
Qed.

(** C8. [call_method] sends exactly one request, the POST of section 6 to
    [host + path], whatever the network answers; on a 2xx answer the result
    is the decoding of the response body. *)
Theorem call_method_one_post_exchange :
  snd (call_method this path params sent) =
    sent ++ [mkRequest (host this ++ path)%string "POST"
                       [("Content-Type", "application/json")]
                       (JSON_stringify params)] /\
  (forall response,
     exchange this path params sent = Normal response ->
     response_ok response = true ->
     fst (call_method this path params sent) =
     match JSON_parse (response_body response) with
     | Normal v => Normal (ok_result v)
     | Abrupt e => Abrupt e
     end).
Proof.
  rewrite call_method_cases. cbn [fst snd].
  split; [reflexivity |].
  intros response -> ->. reflexivity.
Qed.

(** C10. A 2xx response whose body does not decode makes [call_method]
    throw the decoding error: it returns no result at all. *)
Theorem call_method_undecodable_body_throws (response : Response) (e : Error) :
  exchange this path params sent = Normal response ->
  response_ok response = true ->
  JSON_parse (response_body response) = Abrupt e ->
  fst (call_method this path params sent) = Abrupt e /\
  returned (fst (call_method this path params sent)) = None.
Proof.
  intros Hx Hok Hdec. rewrite call_method_cases. cbn [fst].
  rewrite Hx, Hok, Hdec. split; reflexivity.
Qed.

End CallMethod.

(** Section 8's examples, on the demo platform. *)
Example classify_401 :
  fst (@call_method demo_platform demo_client "/private" JNull []) =
  Normal (err_result (new ReprocaUnauthorizedError)).
Proof. reflexivity. Qed.

Example classify_200 :
  fst (@call_method demo_platform demo_client "/five" JNull []) =
  Normal (ok_result (JNumber 5)).
Proof. reflexivity. Qed.

Example classify_network_failure :
  fst (@call_method demo_platform demo_client "/nowhere" JNull []) =
  Normal (err_result (mkError TypeError "Failed to fetch")).
Proof. reflexivity. Qed.

Lemma call_method_result_exactly_one_witness :
  Spec.exactly_one (@ok_result json (JNumber 5)) /\
  exists r, fst (@call_method demo_platform demo_client "/teapot" JNull [])
            = Normal r /\ Spec.exactly_one r.
Proof.
  split.
  - apply (proj1 (@call_method_result_exactly_one demo_platform demo_client
                    "/five" JNull []) (ok_result (JNumber 5))).
    reflexivity.
  - apply (proj2 (@call_method_result_exactly_one demo_platform demo_client
                    "/teapot" JNull [])).
    cbn. intros H. discriminate H.
Defined.

Lemma call_method_rethrows_unexpected_witness :
  fst (@call_method demo_platform demo_client "/aborted" JNull []) =
  Abrupt (mkError AbortError "aborted").
Proof.
  apply (proj2 (@call_method_rethrows_unexpected demo_platform demo_client
                  "/aborted" JNull [] (mkError AbortError "aborted")
                  eq_refl)).
  reflexivity.
Defined.

Lemma call_method_one_post_exchange_witness :
  snd (@call_method demo_platform demo_client "/five" (JObject []) []) =
    [mkRequest "http://api/five" "POST"
               [("Content-Type", "application/json")] "{}"] /\
  fst (@call_method demo_platform demo_client "/five" (JObject []) []) =
    Normal (ok_result (JNumber 5)).
Proof.
  destruct (@call_method_one_post_exchange demo_platform demo_client
              "/five" (JObject []) []) as [Hsent Hres].
  split.
  - exact Hsent.
  - exact (Hres (mkResponse 200 "5") eq_refl eq_refl).
Defined.

Lemma call_method_undecodable_body_throws_witness :
  fst (@call_method demo_platform demo_client "/html" JNull []) =
    Abrupt (mkError SyntaxError "Unexpected token") /\
  returned (fst (@call_method demo_platform demo_client "/html" JNull []))
    = None.
Proof.
  apply (@call_method_undecodable_body_throws demo_platform demo_client
           "/html" JNull [] (mkResponse 200 "<html>")
           (mkError SyntaxError "Unexpected token"));
    reflexivity.
Defined.

(* ================================================================== *)
(** * The hooks read through their state container *)

Section Simulation.
Context {T C : Type}.
Variable h : Hook T C.
Variable keeps : bool.
Variable producer : nat -> completion (ReprocaMethodResponse T).
Variable reload : option Z.

Hypothesis init_undefined : hook_state h (hook_init h) = None.
Hypothesis fetch_calls_producer :
  forall w, hook_fetch h w = (call_producer producer w, None).
Hypothesis then_publishes :
  forall value w,
    view h (fst (hook_then h value w)) =
    fst (Reference.binding_then keeps reload value (view h w)).

Lemma view_initial :
  view h (initial h) =
  initial (read_through h keeps producer reload).
Proof.
  unfold view, observed, initial. cbn. rewrite init_undefined. reflexivity.
Qed.

Lemma view_fetch (w : World T C) :
  view h (fst (hook_fetch h w)) =
  fst (hook_fetch (read_through h keeps producer reload)
         (view h w)).
Proof. rewrite fetch_calls_producer. reflexivity. Qed.

Lemma view_run_effect (w : World T C) :
  view h (run_effect h w) =
  run_effect (read_through h keeps producer reload)
    (view h w).
Proof.
  unfold run_effect. rewrite fetch_calls_producer. reflexivity.
Qed.

Lemma view_run_cleanup (c : option Cleanup) (w : World T C) :
  view h (run_cleanup c w) = run_cleanup c (view h w).
Proof. destruct c as [[id] |]; reflexivity. Qed.

Lemma view_rerender (w : World T C) :
  view h (rerender h w) =
  rerender (read_through h keeps producer reload)
    (view h w).
Proof.
  unfold rerender. cbn [mounted view set_cell hook_deps read_through
                          Reference.binding effect_cleanup].
  destruct (mounted w); [| reflexivity].
  destruct (hook_deps h); [reflexivity |].
  rewrite view_run_effect, view_run_cleanup. reflexivity.
Qed.

Lemma view_settle (k : nat) (w : World T C) :
  view h (settle h k w) =
  settle (read_through h keeps producer reload) k
    (view h w).
Proof.
  unfold settle. cbn [pending view set_cell].
  destruct (find_promise k (pending w)) as [p |]; [| reflexivity].
  destruct (settlement p) as [value | e]; [| reflexivity].
  cbn [hook_rerenders hook_then read_through Reference.binding].
  destruct (hook_rerenders h).
  - rewrite view_rerender, then_publishes. reflexivity.
  - rewrite then_publishes. reflexivity.
Qed.

Lemma view_fire (tm : Timer) (w : World T C) :
  view h (fire h tm w) =
  fire (read_through h keeps producer reload) tm
    (view h w).
Proof.
  unfold fire. cbn [timers view set_cell].
  destruct (existsb _ (timers w)); [| reflexivity].
  rewrite fetch_calls_producer. reflexivity.
Qed.

Lemma view_fire_all (l : list Timer) (w : World T C) :
  view h (fold_left (fun w' tm => fire h tm w') l w) =
  fold_left
    (fun w' tm => fire (read_through h keeps producer reload) tm w')
    l (view h w).
Proof.
  revert w. induction l as [| tm l IH]; intros w; cbn [fold_left].
  - reflexivity.
  - rewrite IH, view_fire. reflexivity.
Qed.

Lemma view_advance (dt : Z) (w : World T C) :
  view h (advance h dt w) =
  advance (read_through h keeps producer reload) dt
    (view h w).
Proof.
  unfold advance. cbn [timers now view set_cell].
  rewrite <- view_fire_all. reflexivity.
Qed.

Lemma view_step (ev : Event) (w : World T C) :
  view h (step h ev w) =
  step (read_through h keeps producer reload) ev
    (view h w).
Proof.
  destruct ev; cbn [step].
  - unfold rendered, renders.
    cbn [mounted torn_down view set_cell hook_renderer hook_imports
           read_through Reference.binding].
    destruct (mounted w || torn_down w); [reflexivity |].
    destruct (forallb _ _); [| reflexivity].
    rewrite view_run_effect. reflexivity.
  - cbn [mounted view set_cell effect_cleanup].
    destruct (mounted w); [| reflexivity].
    rewrite view_run_effect, view_run_cleanup. reflexivity.
  - apply view_rerender.
  - cbn [mounted view set_cell effect_cleanup].
    destruct (mounted w); [| reflexivity].
    change (set_torn_down true
              (set_mounted false
                 (set_effect_cleanup None
                    (view h (run_cleanup (effect_cleanup w) w)))) =
            set_torn_down true
              (set_mounted false
                 (set_effect_cleanup None
                    (run_cleanup (effect_cleanup w) (view h w))))).
    rewrite view_run_cleanup. reflexivity.
  - unfold rendered. cbn [mounted torn_down view set_cell].
    destruct (mounted w || torn_down w); [apply view_fetch | reflexivity].
  - apply view_settle.
  - apply view_advance.
Qed.

Lemma view_run (evs : list Event) (w : World T C) :
  view h (run h evs w) =
  run (read_through h keeps producer reload) evs
    (view h w).
Proof.
  unfold run. revert w.
  induction evs as [| ev evs IH]; intros w; cbn [fold_left].
  - reflexivity.
  - rewrite IH, view_step. reflexivity.
Qed.

End Simulation.

(** Each of the four hooks meets the conditions of the simulation. *)
Lemma hook_of_then_publishes {T : Type} (v : Variant) (c : Component)
  (producer : nat -> completion (ReprocaMethodResponse T))
  (deps : option DependencyList) (reload : option Z)
  (value : ReprocaMethodResponse T) (w : World T (container T v)) :
  view (hook_of v c producer deps reload)
       (fst (hook_then (hook_of v c producer deps reload) value w)) =
  fst (Reference.binding_then (keeps_after_teardown v) reload value
         (view (hook_of v c producer deps reload) w)).
Proof.
  destruct v; cbn [hook_of hook_then keeps_after_teardown];
    unfold ForReact.useMethodSignal, ForReact.useMethod,
      ForPreact.useMethodSignal, ForPreact.useMethod,
      ForReact.useMethodSignal_then, ForReact.useMethod_then,
      ForPreact.useMethodSignal_then, ForPreact.useMethod_then,
      Reference.binding_then, Signals.assign_value, StateHook.setState;
    cbn [hook_then];
    destruct (truthy_number reload && truthy_object (err value));
    destruct w as [t cl tms nt cs ps ec [|] td tr]; reflexivity.
Qed.

Lemma read_through_hook_of {T : Type} (v : Variant) (c : Component)
  (producer : nat -> completion (ReprocaMethodResponse T))
  (deps : option DependencyList) (reload : option Z) :
  read_through (hook_of v c producer deps reload) (keeps_after_teardown v)
               producer reload =
  Reference.binding (keeps_after_teardown v)
    (hook_imports (hook_of v c producer deps reload)) (renderer c)
    (hook_rerenders (hook_of v c producer deps reload))
    producer deps reload.
Proof. destruct v; reflexivity. Qed.

Lemma renders_hook_of {T : Type} (v : Variant) (c : Component)
  (producer : nat -> completion (ReprocaMethodResponse T))
  (deps : option DependencyList) (reload : option Z) :
  renders (hook_of v c producer deps reload) =
  forallb (serves (renderer c))
          (hook_imports (hook_of v c producer deps reload)).
Proof. destruct v; reflexivity. Qed.

Lemma hook_of_view_step {T : Type} (v : Variant) (c : Component)
  (producer : nat -> completion (ReprocaMethodResponse T))
  (deps : option DependencyList) (reload : option Z)
  (ev : Event) (w : World T (container T v)) :
  view (hook_of v c producer deps reload)
       (step (hook_of v c producer deps reload) ev w) =
  step (Reference.binding (keeps_after_teardown v)
          (hook_imports (hook_of v c producer deps reload)) (renderer c)
          (hook_rerenders (hook_of v c producer deps reload))
          producer deps reload)
       ev (view (hook_of v c producer deps reload) w).
Proof.
  rewrite <- read_through_hook_of. apply view_step.
  - destruct v; reflexivity.
  - apply hook_of_then_publishes.
Qed.

Lemma hook_of_view_run {T : Type} (v : Variant) (c : Component)
  (producer : nat -> completion (ReprocaMethodResponse T))
  (deps : option DependencyList) (reload : option Z)
  (evs : list Event) (w : World T (container T v)) :
  view (hook_of v c producer deps reload)
       (run (hook_of v c producer deps reload) evs w) =
  run (Reference.binding (keeps_after_teardown v)
         (hook_imports (hook_of v c producer deps reload)) (renderer c)
         (hook_rerenders (hook_of v c producer deps reload))
         producer deps reload)
      evs (view (hook_of v c producer deps reload) w).
Proof.
  rewrite <- read_through_hook_of. apply view_run.
  - destruct v; reflexivity.
  - apply hook_of_then_publishes.
Qed.

Lemma hook_of_reachable_view {T : Type} (v : Variant) (c : Component)
  (producer : nat -> completion (ReprocaMethodResponse T))
  (deps : option DependencyList) (reload : option Z) (evs : list Event) :
  view (hook_of v c producer deps reload)
       (run (hook_of v c producer deps reload) evs
            (initial (hook_of v c producer deps reload))) =
  run (Reference.binding (keeps_after_teardown v)
         (hook_imports (hook_of v c producer deps reload)) (renderer c)
         (hook_rerenders (hook_of v c producer deps reload))
         producer deps reload)
      evs
      (initial (Reference.binding (keeps_after_teardown v)
                  (hook_imports (hook_of v c producer deps reload))
                  (renderer c)
                  (hook_rerenders (hook_of v c producer deps reload))
                  producer deps reload)).
Proof.
  rewrite hook_of_view_run. f_equal. destruct v; reflexivity.
Qed.

(* ================================================================== *)
(** * Steps of the reference binding *)

Section ReferenceSteps.
Context {T : Type}.
Variable keeps : bool.
Variable imports : list Package.
Variable r : Renderer.
Variable rerenders_ : bool.
Variable producer : nat -> completion (ReprocaMethodResponse T).
Variable deps : option DependencyList.
Variable reload : option Z.

Lemma advance_idle (dt : Z) (w : World T (option (ReprocaMethodResponse T))) :
  timers w = [] ->
  advance (Reference.binding keeps imports r rerenders_ producer deps reload)
          dt w =
  set_now (now w + Z.max 0 dt) w.
Proof.
  intros Ht. unfold advance. rewrite Ht. reflexivity.
Qed.

Lemma advance_fires_single (dt : Z) (tm : Timer)
  (w : World T (option (ReprocaMethodResponse T))) :
  timers w = [tm] -> due tm <= now w + Z.max 0 dt ->
  advance (Reference.binding keeps imports r rerenders_ producer deps reload)
          dt w =
  set_now (now w + Z.max 0 dt)
    (call_producer producer
       (log (TimerFired (timer_id tm))
          (set_timers [] (set_now (Z.max (now w) (due tm)) w)))).
Proof.
  intros Ht Hdue. unfold advance. rewrite Ht. cbn [filter].
  apply Z.leb_le in Hdue. rewrite Hdue.
  cbn [sort_by_due fold_right insert_by_due fold_left].
  unfold fire. rewrite Ht. cbn [existsb]. rewrite Nat.eqb_refl.
  cbn [orb fst hook_fetch Reference.binding timers set_now filter].
  rewrite Ht. cbn [filter]. rewrite Nat.eqb_refl. reflexivity.
Qed.

Lemma advance_not_due (dt : Z) (tm : Timer)
  (w : World T (option (ReprocaMethodResponse T))) :
  timers w = [tm] -> now w + Z.max 0 dt < due tm ->
  advance (Reference.binding keeps imports r rerenders_ producer deps reload)
          dt w =
  set_now (now w + Z.max 0 dt) w.
Proof.
  intros Ht Hdue. unfold advance. rewrite Ht. cbn [filter].
  apply Z.leb_gt in Hdue. rewrite Hdue. reflexivity.
Qed.

(** What the [.then] callback leaves of the world. *)
Lemma binding_then_timers (value : ReprocaMethodResponse T)
  (w : World T (option (ReprocaMethodResponse T))) :
  timers (fst (Reference.binding_then keeps reload value w)) =
  if truthy_number reload && truthy_object (err value)
  then timers w ++
       [mkTimer (next_timer w) (now w + timer_delay (delay_of reload))]
  else timers w.
Proof.
  unfold Reference.binding_then.
  destruct (truthy_number reload && truthy_object (err value));
    destruct (keeps || mounted w); reflexivity.
Qed.

Lemma binding_then_rest (value : ReprocaMethodResponse T)
  (w : World T (option (ReprocaMethodResponse T))) :
  pending (fst (Reference.binding_then keeps reload value w)) = pending w /\
  calls (fst (Reference.binding_then keeps reload value w)) = calls w /\
  mounted (fst (Reference.binding_then keeps reload value w)) = mounted w /\
  torn_down (fst (Reference.binding_then keeps reload value w))
    = torn_down w /\
  effect_cleanup (fst (Reference.binding_then keeps reload value w))
    = effect_cleanup w /\
  now (fst (Reference.binding_then keeps reload value w)) = now w.
Proof.
  unfold Reference.binding_then.
  destruct (truthy_number reload && truthy_object (err value));
    destruct (keeps || mounted w); repeat split.
Qed.

Lemma binding_then_cell (value : ReprocaMethodResponse T)
  (w : World T (option (ReprocaMethodResponse T))) :
  cell (fst (Reference.binding_then keeps reload value w)) =
  if keeps || mounted w then Some value else cell w.
Proof.
  unfold Reference.binding_then.
  destruct (truthy_number reload && truthy_object (err value));
    destruct (keeps || mounted w); reflexivity.
Qed.

Lemma binding_then_publications (value : ReprocaMethodResponse T)
  (w : World T (option (ReprocaMethodResponse T))) :
  publications (fst (Reference.binding_then keeps reload value w)) =
  publications w ++ [value].
Proof.
  unfold Reference.binding_then, publications.
  destruct (truthy_number reload && truthy_object (err value));
    destruct (keeps || mounted w);
    cbn [fst trace setTimeout log set_cell];
    rewrite !flat_map_app; cbn [flat_map snd app];
    rewrite ?app_nil_r; reflexivity.
Qed.

Lemma settle_fulfilled (k : nat) (p : Promise T)
  (value : ReprocaMethodResponse T)
  (w : World T (option (ReprocaMethodResponse T))) :
  find_promise k (pending w) = Some p -> settlement p = Normal value ->
  settle (Reference.binding keeps imports r rerenders_ producer deps reload)
         k w =
  if rerenders_
  then rerender
         (Reference.binding keeps imports r rerenders_ producer deps reload)
         (fst (Reference.binding_then keeps reload value
                 (set_pending (remove_promise k (pending w)) w)))
  else fst (Reference.binding_then keeps reload value
              (set_pending (remove_promise k (pending w)) w)).
Proof.
  intros Hf Hs. unfold settle. rewrite Hf, Hs. reflexivity.
Qed.

(** What a re-render is: nothing, or the cleanup and the effect again. *)
Lemma rerender_cases (w : World T (option (ReprocaMethodResponse T))) :
  rerender (Reference.binding keeps imports r rerenders_ producer deps reload)
           w = w \/
  rerender (Reference.binding keeps imports r rerenders_ producer deps reload)
           w =
    set_effect_cleanup None
      (call_producer producer (run_cleanup (effect_cleanup w) w)).
Proof.
  unfold rerender. destruct (mounted w); [| left; reflexivity].
  cbn [hook_deps Reference.binding].
  destruct deps; [left | right]; reflexivity.
Qed.

Lemma rerender_deps_given (d : DependencyList)
  (w : World T (option (ReprocaMethodResponse T))) :
  deps = Some d ->
  rerender (Reference.binding keeps imports r rerenders_ producer deps reload)
           w = w.
Proof.
  intros ->. unfold rerender. destruct (mounted w); reflexivity.
Qed.

Lemma run_cleanup_timers (c : option Cleanup)
  (w : World T (option (ReprocaMethodResponse T))) :
  incl (timers (run_cleanup c w)) (timers w).
Proof.
  destruct c as [[id] |]; [| apply incl_refl].
  cbn. intros x Hx. apply filter_In in Hx. apply Hx.
Qed.

Lemma rerender_timers (w : World T (option (ReprocaMethodResponse T))) :
  incl (timers
          (rerender
             (Reference.binding keeps imports r rerenders_ producer deps
                                reload) w))
       (timers w).
Proof.
  destruct (rerender_cases w) as [-> | ->]; [apply incl_refl |].
  exact (run_cleanup_timers (effect_cleanup w) w).
Qed.

Lemma rerender_cleanup (w : World T (option (ReprocaMethodResponse T))) :
  effect_cleanup w = None ->
  effect_cleanup
    (rerender
       (Reference.binding keeps imports r rerenders_ producer deps reload) w)
  = None.
Proof.
  intros Hc. destruct (rerender_cases w) as [-> | ->];
    [exact Hc | reflexivity].
Qed.

Lemma fire_cleanup (tm : Timer)
  (w : World T (option (ReprocaMethodResponse T))) :
  effect_cleanup
    (fire (Reference.binding keeps imports r rerenders_ producer deps reload)
          tm w) = effect_cleanup w.
Proof. unfold fire. destruct (existsb _ _); reflexivity. Qed.

Lemma fire_timers (tm : Timer)
  (w : World T (option (ReprocaMethodResponse T))) :
  incl (timers
          (fire (Reference.binding keeps imports r rerenders_ producer deps
                                   reload) tm w))
       (timers w).
Proof.
  unfold fire. destruct (existsb _ _); [| apply incl_refl].
  cbn. intros x Hx. apply filter_In in Hx. apply Hx.
Qed.

(** What each firing leaves alone, all the firings of a tick leave alone. *)
Lemma fire_all_preserves {B : Type}
  (f : World T (option (ReprocaMethodResponse T)) -> B) :
  (forall tm w,
     f (fire (Reference.binding keeps imports r rerenders_ producer deps
                                reload) tm w) = f w) ->
  forall l w,
    f (fold_left
         (fun w' tm =>
            fire (Reference.binding keeps imports r rerenders_ producer deps
                                    reload) tm w') l w)
    = f w.
Proof.
  intros Hf l. induction l as [| tm l IH]; intros w; cbn [fold_left].
  - reflexivity.
  - rewrite IH. apply Hf.
Qed.

Lemma fire_all_timers (l : list Timer)
  (w : World T (option (ReprocaMethodResponse T))) :
  incl (timers
          (fold_left
             (fun w' tm =>
                fire (Reference.binding keeps imports r rerenders_ producer
                                        deps reload) tm w') l w))
       (timers w).
Proof.
  revert w. induction l as [| tm l IH]; intros w; cbn [fold_left].
  - apply incl_refl.
  - eapply incl_tran; [apply IH | apply fire_timers].
Qed.

(** useEffect never holds a cleanup: [fetch] returns none. *)
Lemma step_keeps_no_cleanup (ev : Event)
  (w : World T (option (ReprocaMethodResponse T))) :
  effect_cleanup w = None ->
  effect_cleanup
    (step (Reference.binding keeps imports r rerenders_ producer deps reload)
          ev w) = None.
Proof.
  intros Hc. destruct ev; cbn [step].
  - destruct (rendered w); [exact Hc |].
    destruct (renders _); [reflexivity | exact Hc].
  - destruct (mounted w); [reflexivity | exact Hc].
  - apply rerender_cleanup, Hc.
  - destruct (mounted w); [reflexivity | exact Hc].
  - destruct (rendered w); exact Hc.
  - unfold settle. destruct (find_promise k (pending w)) as [p |]; [| exact Hc].
    destruct (settlement p) as [value | e]; [| exact Hc].
    cbn [hook_then hook_rerenders Reference.binding].
    assert (Hc' : effect_cleanup
                    (fst (Reference.binding_then keeps reload value
                            (set_pending (remove_promise k (pending w)) w)))
                  = None).
    { rewrite (proj1 (proj2 (proj2 (proj2 (proj2
                 (binding_then_rest value _)))))). exact Hc. }
    destruct rerenders_; [apply rerender_cleanup |]; exact Hc'.
  - unfold advance. cbn [effect_cleanup set_now].
    rewrite (fire_all_preserves effect_cleanup fire_cleanup). exact Hc.
Qed.

Lemma run_keeps_no_cleanup (evs : list Event)
  (w : World T (option (ReprocaMethodResponse T))) :
  effect_cleanup w = None ->
  effect_cleanup
    (run (Reference.binding keeps imports r rerenders_ producer deps reload)
         evs w) = None.
Proof.
  unfold run. revert w.
  induction evs as [| ev evs IH]; intros w Hc; cbn [fold_left].
  - exact Hc.
  - apply IH, step_keeps_no_cleanup, Hc.
Qed.

(** Only a fulfilled promise carrying an [err] adds a timer. *)
Lemma step_new_timer (ev : Event) (tm : Timer)
  (w : World T (option (ReprocaMethodResponse T))) :
  In tm (timers
           (step (Reference.binding keeps imports r rerenders_ producer deps
                                    reload) ev w)) ->
  ~ In tm (timers w) ->
  exists k p value e,
    ev = Settle k /\ find_promise k (pending w) = Some p /\
    settlement p = Normal value /\ err value = Some e /\
    truthy_number reload = true.
Proof.
  intros Hin Hnew. destruct ev; cbn [step] in Hin.
  - destruct (rendered w); [contradiction |].
    destruct (renders _); contradiction.
  - destruct (mounted w); [| contradiction].
    apply (run_cleanup_timers (effect_cleanup w) w) in Hin. contradiction.
  - apply rerender_timers in Hin. contradiction.
  - destruct (mounted w); [| contradiction].
    apply (run_cleanup_timers (effect_cleanup w) w) in Hin. contradiction.
  - destruct (rendered w); contradiction.
  - unfold settle in Hin.
    destruct (find_promise k (pending w)) as [p |] eqn:Hf; [| contradiction].
    destruct (settlement p) as [value | e] eqn:Hs; [| contradiction].
    cbn [hook_then hook_rerenders Reference.binding] in Hin.
    assert (Hin' : In tm (timers
                     (fst (Reference.binding_then keeps reload value
                             (set_pending (remove_promise k (pending w))
                                          w))))).
    { destruct rerenders_; [apply rerender_timers in Hin |]; exact Hin. }
    rewrite binding_then_timers in Hin'. cbn [timers set_pending] in Hin'.
    destruct (truthy_number reload) eqn:Hr; [| contradiction].
    destruct (err value) as [e |] eqn:He; [| contradiction].
    exists k, p, value, e. repeat split; assumption.
  - unfold advance in Hin. cbn [timers set_now] in Hin.
    apply fire_all_timers in Hin. contradiction.
Qed.

Lemma run_app (a b : list Event)
  (w : World T (option (ReprocaMethodResponse T))) :
  run (Reference.binding keeps imports r rerenders_ producer deps reload)
      (a ++ b) w =
  run (Reference.binding keeps imports r rerenders_ producer deps reload) b
      (run (Reference.binding keeps imports r rerenders_ producer deps reload)
           a w).
Proof. unfold run. apply fold_left_app. Qed.

End ReferenceSteps.

Lemma timer_delay_in_range (R : Z) :
  0 < R < 2147483648 -> timer_delay R = R.
Proof.
  intros HR. unfold timer_delay, to_int32.
  rewrite Z.mod_small by lia. lia.
Qed.

Lemma settle_fulfilled_deps_given {T : Type} (keeps : bool)
  (imports : list Package) (r : Renderer) (rerenders_ : bool)
  (producer : nat -> completion (ReprocaMethodResponse T))
  (d : DependencyList) (reload : option Z) (k : nat) (p : Promise T)
  (value : ReprocaMethodResponse T)
  (w : World T (option (ReprocaMethodResponse T))) :
  find_promise k (pending w) = Some p -> settlement p = Normal value ->
  settle (Reference.binding keeps imports r rerenders_ producer (Some d)
                            reload) k w =
  fst (Reference.binding_then keeps reload value
         (set_pending (remove_promise k (pending w)) w)).
Proof.
  intros Hf Hs.
  rewrite (settle_fulfilled keeps imports r rerenders_ producer (Some d)
             reload k p value w Hf Hs).
  destruct rerenders_; [| reflexivity].
  apply (rerender_deps_given keeps imports r true producer (Some d) reload d).
  reflexivity.
Qed.

(* ================================================================== *)
(** * Automatic retry on the reference binding, deps given *)

Section RetryRuns.
Context {T : Type}.
Variable keeps : bool.
Variable imports : list Package.
Variable r : Renderer.
Variable rerenders_ : bool.
Variable producer : nat -> completion (ReprocaMethodResponse T).
Variable d : DependencyList.
Variables R L : Z.
Hypothesis served : forallb (serves r) imports = true.
Hypothesis R_in_range : 0 < R < 2147483648.
Hypothesis L_nonneg : 0 <= L.

Lemma mount_awaiting :
  awaiting producer (L + R) 0
    (step (Reference.binding keeps imports r rerenders_ producer (Some d)
                             (Some R))
          Mount
          (initial (Reference.binding keeps imports r rerenders_ producer
                                      (Some d) (Some R)))).
Proof.
  cbn [step]. unfold rendered, renders.
  cbn [initial mounted torn_down orb hook_renderer hook_imports
         Reference.binding].
  rewrite served. repeat split.
Qed.

(** One round: the call settles with an [err] after [L] ms, the timer set
    then fires [R] ms later and calls the producer again. *)
Lemma round_awaiting (n : nat)
  (w : World T (option (ReprocaMethodResponse T)))
  (res : ReprocaMethodResponse T) (e : Error) :
  producer n = Normal res -> err res = Some e ->
  awaiting producer (L + R) n w ->
  awaiting producer (L + R) (S n)
    (run (Reference.binding keeps imports r rerenders_ producer (Some d)
                            (Some R))
         (retry_round L R n) w).
Proof.
  intros Hp He Haw.
  destruct w as [t c tms nt cs ps cl mt td tr].
  destruct Haw as (Hnow & Htm & Hcalls & Hpend & Hmt & Hinv).
  cbn in Hnow, Htm, Hcalls, Hpend, Hmt. subst t tms cs ps mt.
  unfold run, retry_round. cbn [fold_left step].
  rewrite (advance_idle _ _ _ _ _ _ _ L) by reflexivity.
  erewrite settle_fulfilled_deps_given;
    [ | cbn; rewrite Nat.eqb_refl; reflexivity | exact Hp ].
  unfold Reference.binding_then. rewrite He.
  cbn [truthy_number truthy_object delay_of].
  assert (HR0 : (R =? 0) = false) by (apply Z.eqb_neq; lia).
  rewrite HR0. cbn [negb andb].
  cbn [mounted set_pending set_now]. rewrite orb_true_r.
  cbn -[Z.max Z.add Z.mul Z.of_nat advance timer_delay].
  rewrite Nat.eqb_refl, !(timer_delay_in_range R R_in_range).
  cbn -[Z.max Z.add Z.mul Z.of_nat advance].
  erewrite advance_fires_single;
    [ | reflexivity | cbn -[Z.max Z.add Z.mul Z.of_nat]; lia ].
  unfold awaiting, invocation_times in *.
  cbn -[Z.max Z.add Z.mul Z.of_nat seq] in *.
  repeat split.
  - lia.
  - rewrite !flat_map_app. cbn -[Z.max Z.add Z.mul Z.of_nat seq].
    rewrite !app_nil_r, Hinv.
    rewrite (seq_S (S n) 0), map_app. cbn -[Z.max Z.add Z.mul Z.of_nat seq].
    f_equal. f_equal. lia.
Qed.

Lemma retry_rounds_succ (n : nat) :
  retry_rounds L R (S n) = retry_rounds L R n ++ retry_round L R n.
Proof.
  unfold retry_rounds. rewrite seq_S, flat_map_app. cbn [flat_map Nat.add].
  rewrite app_nil_r. reflexivity.
Qed.

Lemma rounds_awaiting (n : nat) :
  (forall k, (k < n)%nat ->
             exists res e, producer k = Normal res /\ err res = Some e) ->
  awaiting producer (L + R) n
    (run (Reference.binding keeps imports r rerenders_ producer (Some d)
                            (Some R))
         (Mount :: retry_rounds L R n)
         (initial (Reference.binding keeps imports r rerenders_ producer
                                     (Some d) (Some R)))).
Proof.
  induction n as [| n IH]; intros Hfail.
  - apply mount_awaiting.
  - rewrite retry_rounds_succ.
    change (Mount :: ?a ++ ?b) with ((Mount :: a) ++ b).
    rewrite run_app.
    destruct (Hfail n (Nat.lt_succ_diag_r n)) as (res & e & Hp & He).
    apply (round_awaiting n _ res e Hp He).
    apply IH. intros k Hk. apply Hfail. lia.
Qed.

(** The call awaited settles with an [ok]: nothing is scheduled. *)
Lemma ok_settles (n : nat)
  (w : World T (option (ReprocaMethodResponse T)))
  (res : ReprocaMethodResponse T) :
  producer n = Normal res -> err res = None ->
  awaiting producer (L + R) n w ->
  settled (Reference.binding keeps imports r rerenders_ producer (Some d)
                             (Some R)) res (S n)
    (run (Reference.binding keeps imports r rerenders_ producer (Some d)
                            (Some R)) [Tick L; Settle n] w).
Proof.
  intros Hp He Haw.
  destruct w as [t c tms nt cs ps cl mt td tr].
  destruct Haw as (Hnow & Htm & Hcalls & Hpend & Hmt & Hinv).
  cbn in Hnow, Htm, Hcalls, Hpend, Hmt. subst t tms cs ps mt.
  unfold run. cbn [fold_left step].
  rewrite (advance_idle _ _ _ _ _ _ _ L) by reflexivity.
  erewrite settle_fulfilled_deps_given;
    [ | cbn; rewrite Nat.eqb_refl; reflexivity | exact Hp ].
  unfold Reference.binding_then. rewrite He.
  cbn [truthy_object]. rewrite andb_false_r.
  cbn [mounted set_pending set_now]. rewrite orb_true_r.
  unfold settled. cbn -[Z.max Z.add Z.mul Z.of_nat].
  rewrite Nat.eqb_refl. repeat split.
Qed.

(** Once settled, the passage of time changes nothing. *)
Lemma ticks_keep_settled (dts : list Z) (n : nat)
  (w : World T (option (ReprocaMethodResponse T)))
  (res : ReprocaMethodResponse T) :
  settled (Reference.binding keeps imports r rerenders_ producer (Some d)
                             (Some R)) res n w ->
  settled (Reference.binding keeps imports r rerenders_ producer (Some d)
                             (Some R)) res n
    (run (Reference.binding keeps imports r rerenders_ producer (Some d)
                            (Some R)) (map Tick dts) w).
Proof.
  unfold run. revert w.
  induction dts as [| dt dts IH]; intros w Hs; cbn [map fold_left].
  - exact Hs.
  - apply IH. destruct Hs as (Hc & Ht & Hp & Ho). cbn [step].
    rewrite advance_idle by exact Ht.
    repeat split; assumption.
Qed.

End RetryRuns.

(* ================================================================== *)
(** * The state and the publications of the reference binding *)

Section ReferenceState.
Context {T : Type}.
Variable keeps : bool.
Variable imports : list Package.
Variable r : Renderer.
Variable rerenders_ : bool.
Variable producer : nat -> completion (ReprocaMethodResponse T).
Variable deps : option DependencyList.
Variable reload : option Z.

Ltac publications_of_trace :=
  unfold publications, call_producer, clearTimeout, log, set_timers, set_now;
  cbn [trace]; rewrite ?flat_map_app; cbn [flat_map snd app];
  rewrite ?app_nil_r.

Lemma call_producer_publications
  (w : World T (option (ReprocaMethodResponse T))) :
  publications (call_producer producer w) = publications w.
Proof. publications_of_trace. reflexivity. Qed.

Lemma run_cleanup_publications (c : option Cleanup)
  (w : World T (option (ReprocaMethodResponse T))) :
  publications (run_cleanup c w) = publications w.
Proof.
  destruct c as [[id] |]; [| reflexivity].
  cbn [run_cleanup]. publications_of_trace. reflexivity.
Qed.

Lemma run_cleanup_cell (c : option Cleanup)
  (w : World T (option (ReprocaMethodResponse T))) :
  cell (run_cleanup c w) = cell w.
Proof. destruct c as [[id] |]; reflexivity. Qed.

Lemma rerender_publications
  (w : World T (option (ReprocaMethodResponse T))) :
  publications
    (rerender
       (Reference.binding keeps imports r rerenders_ producer deps reload) w)
  = publications w.
Proof.
  destruct (rerender_cases keeps imports r rerenders_ producer deps reload w)
    as [-> | ->]; [reflexivity |].
  change (publications
            (call_producer producer (run_cleanup (effect_cleanup w) w))
          = publications w).
  rewrite call_producer_publications. apply run_cleanup_publications.
Qed.

Lemma rerender_cell (w : World T (option (ReprocaMethodResponse T))) :
  cell
    (rerender
       (Reference.binding keeps imports r rerenders_ producer deps reload) w)
  = cell w.
Proof.
  destruct (rerender_cases keeps imports r rerenders_ producer deps reload w)
    as [-> | ->]; [reflexivity |].
  exact (run_cleanup_cell (effect_cleanup w) w).
Qed.

Lemma fire_publications (tm : Timer)
  (w : World T (option (ReprocaMethodResponse T))) :
  publications
    (fire (Reference.binding keeps imports r rerenders_ producer deps reload)
          tm w) = publications w.
Proof.
  unfold fire. destruct (existsb _ _); [| reflexivity].
  cbn [fst hook_fetch Reference.binding]. publications_of_trace.
  reflexivity.
Qed.

Lemma fire_cell (tm : Timer)
  (w : World T (option (ReprocaMethodResponse T))) :
  cell (fire (Reference.binding keeps imports r rerenders_ producer deps
                                reload) tm w) = cell w.
Proof. unfold fire. destruct (existsb _ _); reflexivity. Qed.

(** What a fulfilled call leaves of the state and the publications. *)
Lemma settle_state (k : nat) (p : Promise T)
  (value : ReprocaMethodResponse T)
  (w : World T (option (ReprocaMethodResponse T))) :
  find_promise k (pending w) = Some p -> settlement p = Normal value ->
  cell (settle (Reference.binding keeps imports r rerenders_ producer deps
                                  reload) k w) =
    (if keeps || mounted w then Some value else cell w) /\
  publications
    (settle (Reference.binding keeps imports r rerenders_ producer deps
                               reload) k w) = publications w ++ [value].
Proof.
  intros Hf Hs.
  rewrite (settle_fulfilled keeps imports r rerenders_ producer deps reload
             k p value w Hf Hs).
  pose proof (rerender_cell
                (fst (Reference.binding_then keeps reload value
                        (set_pending (remove_promise k (pending w)) w))))
    as Hc.
  pose proof (rerender_publications
                (fst (Reference.binding_then keeps reload value
                        (set_pending (remove_promise k (pending w)) w))))
    as Hp.
  rewrite binding_then_cell in Hc. rewrite binding_then_publications in Hp.
  destruct rerenders_; [split; assumption |].
  rewrite binding_then_cell, binding_then_publications. split; reflexivity.
Qed.

(** A step leaves the state and the publications alone, unless it is the
    settling of a fulfilled call, which publishes the value, and shows it
    if the container takes it. *)
Lemma step_state_effect (ev : Event)
  (w : World T (option (ReprocaMethodResponse T))) :
  (cell (step (Reference.binding keeps imports r rerenders_ producer deps
                                 reload) ev w) = cell w /\
   publications
     (step (Reference.binding keeps imports r rerenders_ producer deps
                              reload) ev w) = publications w)
  \/
  (exists k p value,
     ev = Settle k /\ find_promise k (pending w) = Some p /\
     settlement p = Normal value /\
     cell (step (Reference.binding keeps imports r rerenders_ producer deps
                                   reload) ev w) =
       (if keeps || mounted w then Some value else cell w) /\
     publications
       (step (Reference.binding keeps imports r rerenders_ producer deps
                                reload) ev w) = publications w ++ [value]).
Proof.
  destruct ev; cbn [step].
  - left. destruct (rendered w); [split; reflexivity |].
    destruct (renders _); [| split; reflexivity].
    split; [reflexivity | exact (call_producer_publications w)].
  - left. destruct (mounted w); [| split; reflexivity].
    unfold run_effect. cbn [hook_fetch Reference.binding]. split.
    + exact (run_cleanup_cell (effect_cleanup w) w).
    + change (publications
                (call_producer producer (run_cleanup (effect_cleanup w) w))
              = publications w).
      rewrite call_producer_publications. apply run_cleanup_publications.
  - left. split; [apply rerender_cell | apply rerender_publications].
  - left. destruct (mounted w); [| split; reflexivity]. split.
    + exact (run_cleanup_cell (effect_cleanup w) w).
    + exact (run_cleanup_publications (effect_cleanup w) w).
  - left. destruct (rendered w); [| split; reflexivity].
    split; [reflexivity | apply call_producer_publications].
  - destruct (find_promise k (pending w)) as [p |] eqn:Hf.
    + destruct (settlement p) as [value | e] eqn:Hs.
      * right. exists k, p, value.
        destruct (settle_state k p value w Hf Hs) as [Hc Hp].
        repeat split; assumption.
      * left. unfold settle. rewrite Hf, Hs. split; reflexivity.
    + left. unfold settle. rewrite Hf. split; reflexivity.
  - left. unfold advance. cbn [cell set_now]. split.
    + apply (fire_all_preserves keeps imports r rerenders_ producer deps
               reload cell fire_cell).
    + change (publications (set_now ?t ?x)) with (publications x).
      apply (fire_all_preserves keeps imports r rerenders_ producer deps
               reload publications fire_publications).
Qed.

(** Once defined, the state is never undefined again. *)
Lemma run_keeps_state_defined (evs : list Event)
  (w : World T (option (ReprocaMethodResponse T))) :
  cell w <> None ->
  cell (run (Reference.binding keeps imports r rerenders_ producer deps
                               reload) evs w) <> None.
Proof.
  unfold run. revert w.
  induction evs as [| ev evs IH]; intros w Hw; cbn [fold_left].
  - exact Hw.
  - apply IH.
    destruct (step_state_effect ev w)
      as [[Hc _] | (k & p & value & _ & _ & _ & Hc & _)];
      rewrite Hc; [exact Hw |].
    destruct (keeps || mounted w); [discriminate | exact Hw].
Qed.

End ReferenceState.


(* ================================================================== *)
(** * Properties of the four hooks *)

Lemma awaiting_view {T : Type} (v : Variant) (c : Component)
  (producer : nat -> completion (ReprocaMethodResponse T))
  (deps : option DependencyList) (reload : option Z) (period : Z) (n : nat)
  (w : World T (container T v)) :
  awaiting producer period n (view (hook_of v c producer deps reload) w) =
  awaiting producer period n w.
Proof. reflexivity. Qed.

Lemma settled_view {T : Type} (v : Variant) (c : Component)
  (producer : nat -> completion (ReprocaMethodResponse T))
  (deps : option DependencyList) (reload : option Z)
  (res : ReprocaMethodResponse T) (n : nat) (w : World T (container T v)) :
  settled (Reference.binding (keeps_after_teardown v)
             (hook_imports (hook_of v c producer deps reload)) (renderer c)
             (hook_rerenders (hook_of v c producer deps reload))
             producer deps reload) res n
          (view (hook_of v c producer deps reload) w) =
  settled (hook_of v c producer deps reload) res n w.
Proof. reflexivity. Qed.

(** Whatever happened before, useEffect holds no cleanup for the hook. *)
Lemma effect_has_no_cleanup {T : Type} (v : Variant) (c : Component)
  (producer : nat -> completion (ReprocaMethodResponse T))
  (deps : option DependencyList) (reload : option Z) (evs : list Event) :
  effect_cleanup (run (hook_of v c producer deps reload) evs
                      (initial (hook_of v c producer deps reload))) = None.
Proof.
  change (effect_cleanup
            (view (hook_of v c producer deps reload)
               (run (hook_of v c producer deps reload) evs
                  (initial (hook_of v c producer deps reload)))) = None).
  rewrite hook_of_reachable_view.
  apply run_keeps_no_cleanup. reflexivity.
Qed.

(** Teardown and a change of deps leave every pending timer in place. *)
Lemma teardown_clears_nothing {T : Type} (v : Variant) (c : Component)
  (producer : nat -> completion (ReprocaMethodResponse T))
  (deps : option DependencyList) (reload : option Z) (evs : list Event) :
  timers (step (hook_of v c producer deps reload) Unmount
            (run (hook_of v c producer deps reload) evs
                 (initial (hook_of v c producer deps reload)))) =
  timers (run (hook_of v c producer deps reload) evs
              (initial (hook_of v c producer deps reload))) /\
  timers (step (hook_of v c producer deps reload) DepsChange
            (run (hook_of v c producer deps reload) evs
                 (initial (hook_of v c producer deps reload)))) =
  timers (run (hook_of v c producer deps reload) evs
              (initial (hook_of v c producer deps reload))).
Proof.
  pose proof (effect_has_no_cleanup v c producer deps reload evs) as Hc.
  cbn [step]. rewrite Hc.
  destruct (mounted _); split; try reflexivity; destruct v; reflexivity.
Qed.

(** C2, at the failing input: the hook is rendered by a renderer that
    serves its imports, deps are passed, the producer always fails and
    reload is 1000. The first failure is published at 50 ms and sets a
    timer for 1050 ms; the scope is torn down at 250 ms. The timer stays;
    at 1050 ms it fires and the producer is called a second time, and when
    that call settles its result is handed to the state primitive and
    another timer is set. *)
Theorem teardown_does_not_cancel_retry (v : Variant) (c : Component)
  (d : DependencyList) :
  renders (hook_of v c always_fails (Some d) (Some 1000)) = true ->
  timers (run (hook_of v c always_fails (Some d) (Some 1000))
              [Mount; Tick 50; Settle 0; Tick 200; Unmount]
              (initial (hook_of v c always_fails (Some d) (Some 1000)))) =
    [mkTimer 0 1050] /\
  mounted (run (hook_of v c always_fails (Some d) (Some 1000))
               [Mount; Tick 50; Settle 0; Tick 200; Unmount]
               (initial (hook_of v c always_fails (Some d) (Some 1000))))
    = false /\
  trace (run (hook_of v c always_fails (Some d) (Some 1000))
             [Mount; Tick 50; Settle 0; Tick 200; Unmount;
              Tick 800; Tick 50; Settle 1]
             (initial (hook_of v c always_fails (Some d) (Some 1000)))) =
    [(0, Invoked 0);
     (50, Published (err_result (new ReprocaServerError)));
     (50, TimerSet 0 1050);
     (1050, TimerFired 0);
     (1050, Invoked 1);
     (1100, Published (err_result (new ReprocaServerError)));
     (1100, TimerSet 1 2100)] /\
  timers (run (hook_of v c always_fails (Some d) (Some 1000))
              [Mount; Tick 50; Settle 0; Tick 200; Unmount;
               Tick 800; Tick 50; Settle 1]
              (initial (hook_of v c always_fails (Some d) (Some 1000)))) =
    [mkTimer 1 2100].
Proof.
  destruct v, c as [[| |] [|]]; intros Hr;
    try discriminate Hr; vm_compute; repeat split.
Qed.

Lemma teardown_does_not_cancel_retry_witness :
  timers (run (hook_of ReactSignal aliased_component always_fails
                       (Some [JNumber 1]) (Some 1000))
              [Mount; Tick 50; Settle 0; Tick 200; Unmount]
              (initial (hook_of ReactSignal aliased_component always_fails
                                (Some [JNumber 1]) (Some 1000)))) =
    [mkTimer 0 1050].
Proof.
  apply (teardown_does_not_cancel_retry ReactSignal aliased_component
           [JNumber 1] eq_refl).
Defined.

(** C5, at the failing input: the hook is rendered by a renderer that
    serves its imports, deps are passed, the producer always fails and
    reload is 1000. The first failure is published at 50 ms and sets a
    timer for 1050 ms; deps change at 250 ms. The effect calls the
    producer once, and the old timer stays: at 1050 ms it fires and calls
    the producer again, a second invocation in the new cycle. *)
Theorem deps_change_does_not_cancel_retry (v : Variant) (c : Component)
  (d : DependencyList) :
  renders (hook_of v c always_fails (Some d) (Some 1000)) = true ->
  timers (run (hook_of v c always_fails (Some d) (Some 1000))
              [Mount; Tick 50; Settle 0; Tick 200; DepsChange]
              (initial (hook_of v c always_fails (Some d) (Some 1000)))) =
    [mkTimer 0 1050] /\
  invocation_times
    (run (hook_of v c always_fails (Some d) (Some 1000))
         [Mount; Tick 50; Settle 0; Tick 200; DepsChange]
         (initial (hook_of v c always_fails (Some d) (Some 1000))))
    = [0; 250] /\
  trace (run (hook_of v c always_fails (Some d) (Some 1000))
             [Mount; Tick 50; Settle 0; Tick 200; DepsChange; Tick 800]
             (initial (hook_of v c always_fails (Some d) (Some 1000)))) =
    [(0, Invoked 0);
     (50, Published (err_result (new ReprocaServerError)));
     (50, TimerSet 0 1050);
     (250, Invoked 1);
     (1050, TimerFired 0);
     (1050, Invoked 2)].
Proof.
  destruct v, c as [[| |] [|]]; intros Hr;
    try discriminate Hr; vm_compute; repeat split.
Qed.

Lemma deps_change_does_not_cancel_retry_witness :
  timers (run (hook_of ReactState react_component always_fails
                       (Some [JNumber 1]) (Some 1000))
              [Mount; Tick 50; Settle 0; Tick 200; DepsChange]
              (initial (hook_of ReactState react_component always_fails
                                (Some [JNumber 1]) (Some 1000)))) =
    [mkTimer 0 1050].
Proof.
  apply (deps_change_does_not_cancel_retry ReactState react_component
           [JNumber 1] eq_refl).
Defined.

(** C6, as amended. Whatever the world (scope alive or torn down, deps
    changed or not since the call was made), a pending call that is
    fulfilled has its value handed to the state primitive: the hooks keep
    no cycle identity and check none. The value becomes the state shown
    whenever the signal of [useMethodSignal] receives it, torn down or
    not, and, for [useMethod], whenever the scope is alive, a change of
    deps notwithstanding; for [useMethod] after teardown the framework
    drops it and the state stays as it was. *)
Theorem resolution_always_published {T : Type} (v : Variant) (c : Component)
  (producer : nat -> completion (ReprocaMethodResponse T))
  (deps : option DependencyList) (reload : option Z)
  (w : World T (container T v)) (k : nat)
  (p : Promise T) (value : ReprocaMethodResponse T) :
  find_promise k (pending w) = Some p ->
  settlement p = Normal value ->
  publications (step (hook_of v c producer deps reload) (Settle k) w) =
    publications w ++ [value] /\
  (keeps_after_teardown v = true \/ mounted w = true ->
   observed (hook_of v c producer deps reload)
            (step (hook_of v c producer deps reload) (Settle k) w)
   = Some value) /\
  (keeps_after_teardown v = false -> mounted w = false ->
   observed (hook_of v c producer deps reload)
            (step (hook_of v c producer deps reload) (Settle k) w)
   = observed (hook_of v c producer deps reload) w).
Proof.
  intros Hf Hs.
  change (publications (view (hook_of v c producer deps reload)
                          (step (hook_of v c producer deps reload)
                                (Settle k) w))
          = publications (view (hook_of v c producer deps reload) w)
              ++ [value] /\
          (keeps_after_teardown v = true \/
           mounted (view (hook_of v c producer deps reload) w) = true ->
           cell (view (hook_of v c producer deps reload)
                   (step (hook_of v c producer deps reload) (Settle k) w))
           = Some value) /\
          (keeps_after_teardown v = false ->
           mounted (view (hook_of v c producer deps reload) w) = false ->
           cell (view (hook_of v c producer deps reload)
                   (step (hook_of v c producer deps reload) (Settle k) w))
           = cell (view (hook_of v c producer deps reload) w))).
  rewrite hook_of_view_step. cbn [step].
  destruct (settle_state (keeps_after_teardown v)
              (hook_imports (hook_of v c producer deps reload)) (renderer c)
              (hook_rerenders (hook_of v c producer deps reload))
              producer deps reload k p value
              (view (hook_of v c producer deps reload) w) Hf Hs)
    as [Hc Hp].
  split; [exact Hp |]. split.
  - intros Hlive. rewrite Hc.
    destruct Hlive as [-> | ->]; [reflexivity |].
    rewrite orb_true_r. reflexivity.
  - intros Hk Hm. rewrite Hc, Hk, Hm. reflexivity.
Qed.

Lemma resolution_always_published_witness :
  publications
    (step (hook_of ReactState react_component always_succeeds
                   (Some [JNumber 1]) None) (Settle 0)
       (run (hook_of ReactState react_component always_succeeds
                     (Some [JNumber 1]) None)
            [Mount; DepsChange; Settle 1]
            (initial (hook_of ReactState react_component always_succeeds
                              (Some [JNumber 1]) None)))) =
    [ok_result (JNumber 1); ok_result (JNumber 0)] /\
  observed (hook_of ReactState react_component always_succeeds
                    (Some [JNumber 1]) None)
    (step (hook_of ReactState react_component always_succeeds
                   (Some [JNumber 1]) None) (Settle 0)
       (run (hook_of ReactState react_component always_succeeds
                     (Some [JNumber 1]) None)
            [Mount; DepsChange; Settle 1]
            (initial (hook_of ReactState react_component always_succeeds
                              (Some [JNumber 1]) None)))) =
    Some (ok_result (JNumber 0)).
Proof.
  destruct (resolution_always_published ReactState react_component
              always_succeeds (Some [JNumber 1]) None
              (run (hook_of ReactState react_component always_succeeds
                            (Some [JNumber 1]) None)
                   [Mount; DepsChange; Settle 1]
                   (initial (hook_of ReactState react_component
                                     always_succeeds (Some [JNumber 1])
                                     None)))
              0 (mkPromise 0 (Normal (ok_result (JNumber 0))))
              (ok_result (JNumber 0)) eq_refl eq_refl)
    as (Hpub & Hobs & _).
  split; [exact Hpub | exact (Hobs (or_intror eq_refl))].
Defined.

(** C6 fails at two inputs. [useMethod] under React: deps change while
    call 0 is in flight, the new cycle's call 1 settles and is shown, then
    call 0 of the cancelled cycle settles: its value replaces the state,
    with the scope alive throughout. [useMethodSignal] of the same file
    under preact with the alias: the scope is torn down while call 0 is in
    flight, then call 0 settles: its value is written to the signal, which
    was undefined. *)
Lemma stale_resolution_overwrites_state :
  (observed (hook_of ReactState react_component always_succeeds
                     (Some [JNumber 1]) None)
     (run (hook_of ReactState react_component always_succeeds
                   (Some [JNumber 1]) None)
          [Mount; DepsChange; Settle 1]
          (initial (hook_of ReactState react_component always_succeeds
                            (Some [JNumber 1]) None))) =
     Some (ok_result (JNumber 1)) /\
   map call_index
     (pending (run (hook_of ReactState react_component always_succeeds
                            (Some [JNumber 1]) None)
                   [Mount; DepsChange; Settle 1]
                   (initial (hook_of ReactState react_component
                                     always_succeeds (Some [JNumber 1])
                                     None)))) =
     [0%nat] /\
   observed (hook_of ReactState react_component always_succeeds
                     (Some [JNumber 1]) None)
     (run (hook_of ReactState react_component always_succeeds
                   (Some [JNumber 1]) None)
          [Mount; DepsChange; Settle 1; Settle 0]
          (initial (hook_of ReactState react_component always_succeeds
                            (Some [JNumber 1]) None))) =
     Some (ok_result (JNumber 0)) /\
   mounted
     (run (hook_of ReactState react_component always_succeeds
                   (Some [JNumber 1]) None)
          [Mount; DepsChange; Settle 1; Settle 0]
          (initial (hook_of ReactState react_component always_succeeds
                            (Some [JNumber 1]) None))) = true) /\
  (observed (hook_of ReactSignal aliased_component always_succeeds
                     (Some [JNumber 1]) None)
     (run (hook_of ReactSignal aliased_component always_succeeds
                   (Some [JNumber 1]) None)
          [Mount; Unmount]
          (initial (hook_of ReactSignal aliased_component always_succeeds
                            (Some [JNumber 1]) None))) = None /\
   torn_down
     (run (hook_of ReactSignal aliased_component always_succeeds
                   (Some [JNumber 1]) None)
          [Mount; Unmount]
          (initial (hook_of ReactSignal aliased_component always_succeeds
                            (Some [JNumber 1]) None))) = true /\
   observed (hook_of ReactSignal aliased_component always_succeeds
                     (Some [JNumber 1]) None)
     (run (hook_of ReactSignal aliased_component always_succeeds
                   (Some [JNumber 1]) None)
          [Mount; Unmount; Settle 0]
          (initial (hook_of ReactSignal aliased_component always_succeeds
                            (Some [JNumber 1]) None))) =
     Some (ok_result (JNumber 0))).
Proof. vm_compute. repeat split. Qed.

(** C4, as amended. For a hook rendered by a renderer that serves its
    imports, with deps passed and a reload [R] from 1 to 2147483647, while
    the scope stays alive: a producer that always fails is called again
    [R] ms after each failure is published, so call [k] happens [k]
    periods of latency plus [R] after the first; a producer that fails
    once and then succeeds is called exactly twice, after which nothing is
    pending and time changes nothing; and, whatever the deps and the
    reload, no step but the settling of a call with an [err] ever adds a
    timer. *)
Theorem retry_only_after_err {T : Type} (v : Variant) (c : Component)
  (producer : nat -> completion (ReprocaMethodResponse T))
  (d : DependencyList) (R L : Z) :
  renders (hook_of v c producer (Some d) (Some R)) = true ->
  0 < R < 2147483648 -> 0 <= L ->
  ((forall k, exists res e, producer k = Normal res /\ err res = Some e) ->
   forall n,
     awaiting producer (L + R) n
       (run (hook_of v c producer (Some d) (Some R))
            (Mount :: retry_rounds L R n)
            (initial (hook_of v c producer (Some d) (Some R))))) /\
  (forall r0 e r1,
     producer 0%nat = Normal r0 -> err r0 = Some e ->
     producer 1%nat = Normal r1 -> err r1 = None ->
     forall dts,
       settled (hook_of v c producer (Some d) (Some R)) r1 2
         (run (hook_of v c producer (Some d) (Some R))
              ((Mount :: retry_round L R 0)
                 ++ [Tick L; Settle 1] ++ map Tick dts)
              (initial (hook_of v c producer (Some d) (Some R))))) /\
  (forall deps reload (w : World T (container T v)) ev tm,
     In tm (timers (step (hook_of v c producer deps reload) ev w)) ->
     ~ In tm (timers w) ->
     exists k p value e,
       ev = Settle k /\ find_promise k (pending w) = Some p /\
       settlement p = Normal value /\ err value = Some e).
Proof.
  intros Hr HR HL. rewrite renders_hook_of in Hr. split; [| split].
  - intros Hfail n.
    rewrite <- (awaiting_view v c producer (Some d) (Some R)).
    rewrite hook_of_reachable_view.
    apply rounds_awaiting; try assumption.
    intros k _. apply Hfail.
  - intros r0 e r1 H0 He0 H1 He1 dts.
    rewrite <- settled_view.
    rewrite hook_of_reachable_view.
    rewrite !run_app.
    apply ticks_keep_settled.
    apply ok_settles; try assumption.
    change (Mount :: retry_round L R 0) with ([Mount] ++ retry_round L R 0).
    rewrite run_app.
    apply (round_awaiting _ _ _ _ producer d R L HR HL 0 _ r0 e H0 He0).
    apply mount_awaiting. exact Hr.
  - intros deps reload w ev tm Hin Hnew.
    change (In tm (timers (view (hook_of v c producer deps reload)
                             (step (hook_of v c producer deps reload) ev w))))
      in Hin.
    rewrite hook_of_view_step in Hin.
    destruct (step_new_timer _ _ _ _ producer deps reload ev tm _ Hin Hnew)
      as (k & p & value & e & H1 & H2 & H3 & H4 & _).
    exists k, p, value, e. repeat split; assumption.
Qed.


Lemma retry_only_after_err_witness :
  awaiting always_fails (10 + 1000) 3
    (run (hook_of PreactSignal preact_component always_fails
                  (Some [JNumber 1]) (Some 1000))
         (Mount :: retry_rounds 10 1000 3)
         (initial (hook_of PreactSignal preact_component always_fails
                           (Some [JNumber 1]) (Some 1000)))) /\
  settled (hook_of ReactState react_component fails_once
                   (Some [JNumber 1]) (Some 1000))
    (ok_result (JNumber 5)) 2
    (run (hook_of ReactState react_component fails_once
                  (Some [JNumber 1]) (Some 1000))
         ((Mount :: retry_round 10 1000 0)
            ++ [Tick 10; Settle 1] ++ map Tick [5; 60000])
         (initial (hook_of ReactState react_component fails_once
                           (Some [JNumber 1]) (Some 1000)))).
Proof.
  split.
  - apply (proj1 (retry_only_after_err PreactSignal preact_component
                    always_fails [JNumber 1] 1000 10 eq_refl
                    (conj eq_refl eq_refl) ltac:(discriminate))).
    intros k. exists (err_result (new ReprocaServerError)).
    exists (new ReprocaServerError). split; reflexivity.
  - apply (proj1 (proj2 (retry_only_after_err ReactState react_component
                           fails_once [JNumber 1] 1000 10 eq_refl
                           (conj eq_refl eq_refl) ltac:(discriminate)))
             (err_result (new ReprocaServerError)) (new ReprocaServerError)
             (ok_result (JNumber 5)));
      reflexivity.
Defined.

(** C4 fails at five inputs. With reload 0 a failing producer is called
    once and no timer is ever set. With reload -1000, and with reload
    2147483648, the retry timer is due the moment the failure is
    published. With deps omitted the publication of the failure makes the
    component render again and the effect calls the producer at once, and
    the publication of the success that follows does the same: the calls
    never stop. [useMethodSignal] of the forReact file under React is
    never called at all. *)
Lemma zero_reload_never_retries :
  (trace (run (hook_of ReactState react_component always_fails
                       (Some [JNumber 1]) (Some 0))
              [Mount; Tick 10; Settle 0; Tick 0; Tick 60000]
              (initial (hook_of ReactState react_component always_fails
                                (Some [JNumber 1]) (Some 0)))) =
     [(0, Invoked 0);
      (10, Published (err_result (new ReprocaServerError)))] /\
   ~ awaiting always_fails (10 + 0) 1
       (run (hook_of ReactState react_component always_fails
                     (Some [JNumber 1]) (Some 0))
            (Mount :: retry_rounds 10 0 1)
            (initial (hook_of ReactState react_component always_fails
                              (Some [JNumber 1]) (Some 0))))) /\
  timers (run (hook_of ReactState react_component always_fails
                       (Some [JNumber 1]) (Some (-1000)))
              [Mount; Tick 10; Settle 0]
              (initial (hook_of ReactState react_component always_fails
                                (Some [JNumber 1]) (Some (-1000))))) =
    [mkTimer 0 10] /\
  timers (run (hook_of ReactState react_component always_fails
                       (Some [JNumber 1]) (Some 2147483648))
              [Mount; Tick 10; Settle 0]
              (initial (hook_of ReactState react_component always_fails
                                (Some [JNumber 1]) (Some 2147483648)))) =
    [mkTimer 0 10] /\
  trace (run (hook_of ReactState react_component fails_once None
                      (Some 1000))
             [Mount; Tick 10; Settle 0; Tick 10; Settle 1]
             (initial (hook_of ReactState react_component fails_once None
                               (Some 1000)))) =
    [(0, Invoked 0);
     (10, Published (err_result (new ReprocaServerError)));
     (10, TimerSet 0 1010);
     (10, Invoked 1);
     (20, Published (ok_result (JNumber 5)));
     (20, Invoked 2)] /\
  calls (run (hook_of ReactSignal react_component always_fails
                      (Some [JNumber 1]) (Some 1000))
             [Mount; Tick 10; Settle 0; Tick 1000]
             (initial (hook_of ReactSignal react_component always_fails
                               (Some [JNumber 1]) (Some 1000)))) = 0%nat.
Proof.
  split; [split; [reflexivity |] | repeat split].
  intros (_ & _ & Hcalls & _). vm_compute in Hcalls. discriminate Hcalls.
Qed.


(* ================================================================== *)
(** * Further properties of reproca.ts *)

Section CallMethodMore.
Context {P : Platform}.
Variables (this : Reproca) (path : string).
Variable sent : list Request.

(** On a JSON document: the two ways [call_method] throws. *)
Lemma call_method_document_throws (params : json) (e : Error) :
  fst (call_method this path params sent) = Abrupt e <->
  (exchange this path params sent = Abrupt e /\
   instanceof_TypeError e = false) \/
  (exists response,
     exchange this path params sent = Normal response /\
     response_ok response = true /\
     JSON_parse (response_body response) = Abrupt e).
Proof.
  rewrite call_method_cases. cbn [fst].
  destruct (exchange this path params sent) as [response | e'].
  - destruct (response_ok response) eqn:Hok.
    + destruct (JSON_parse (response_body response)) as [v | e'] eqn:Hdec.
      * split; [discriminate |].
        intros [[H _] | (r & [= <-] & _ & H)]; [discriminate H |].
        rewrite Hdec in H. discriminate H.
      * split.
        -- intros [= <-]. right. exists response. auto.
        -- intros [[H _] | (r & [= <-] & _ & H)]; [discriminate H |].
           rewrite Hdec in H. injection H as <-. reflexivity.
    + split.
      * destruct (status response =? 400); [discriminate |].
        destruct (status response =? 401); discriminate.
      * intros [[H _] | (r & [= <-] & H & _)]; [discriminate H |].
        rewrite Hok in H. discriminate H.
  - destruct (instanceof_TypeError e') eqn:Hty.
    + split; [discriminate |].
      intros [[[= <-] H] | (r & H & _)]; [| discriminate H].
      rewrite Hty in H. discriminate H.
    + split.
      * intros [= <-]. left. auto.
      * intros [[H _] | (r & H & _)]; [| discriminate H].
        injection H as <-. reflexivity.
Qed.

(** On a JSON document: what a returned result tells about the
    exchange. *)
Lemma call_method_document_result (params : json)
  (r : ReprocaMethodResponse json) :
  fst (call_method this path params sent) = Normal r ->
  (forall v, ok r = Some v ->
     exists response,
       exchange this path params sent = Normal response /\
       response_ok response = true /\
       JSON_parse (response_body response) = Normal v) /\
  (forall e, err r = Some e ->
     match error_class e with
     | ReprocaProtocolError =>
         exists response,
           exchange this path params sent = Normal response /\
           status response = 400
     | ReprocaUnauthorizedError =>
         exists response,
           exchange this path params sent = Normal response /\
           status response = 401
     | ReprocaServerError =>
         exists response,
           exchange this path params sent = Normal response /\
           response_ok response = false /\
           status response <> 400 /\ status response <> 401
     | TypeError => exchange this path params sent = Abrupt e
     | _ => False
     end).
Proof.
  rewrite call_method_cases. cbn [fst].
  destruct (exchange this path params sent) as [response | e'].
  - destruct (response_ok response) eqn:Hok.
    + destruct (JSON_parse (response_body response)) as [v | e'] eqn:Hdec;
        [| discriminate].
      intros [= <-]. split.
      * intros v' [= <-]. exists response. auto.
      * intros e [=].
    + destruct (Z.eqb_spec (status response) 400) as [H4 | H4].
      { intros [= <-]. split; [intros v [=] |].
        intros e [= <-]. exists response. auto. }
      destruct (Z.eqb_spec (status response) 401) as [H1 | H1].
      { intros [= <-]. split; [intros v [=] |].
        intros e [= <-]. exists response. auto. }
      intros [= <-]. split; [intros v [=] |].
      intros e [= <-]. exists response. auto.
  - destruct (instanceof_TypeError e') eqn:Hty; [| discriminate].
    intros [= <-]. split; [intros v [=] |].
    intros e [= <-]. unfold instanceof_TypeError in Hty.
    destruct (error_class e'); try discriminate Hty. reflexivity.
Qed.

(** On a JSON document [call_method_any] is [call_method]. *)
Lemma call_method_any_document (j : json) :
  call_method_any this path (Document j) sent =
  call_method this path j sent.
Proof. reflexivity. Qed.

(** Where [JSON.stringify] throws, [fetch] is not called. *)
Lemma call_method_any_unserialisable (thrown : Error) :
  call_method_any this path (Unserialisable thrown) sent =
  (if instanceof_TypeError thrown
   then Normal (err_result thrown)
   else Abrupt thrown, sent).
Proof.
  unfold call_method_any, bind, try_catch, stringify, throw, ret.
  destruct (instanceof_TypeError thrown); reflexivity.
Qed.

(** X1. The three ways [call_method] throws, and no other: the
    serialisation of [params] throws something that is no [TypeError]; the
    exchange throws something that is no [TypeError]; a 2xx body does not
    decode. *)
Theorem call_method_throws_iff (any : Params) (e : Error) :
  fst (call_method_any this path any sent) = Abrupt e <->
  (any = Unserialisable e /\ instanceof_TypeError e = false) \/
  (exists j,
     any = Document j /\
     ((exchange this path j sent = Abrupt e /\
       instanceof_TypeError e = false) \/
      (exists response,
         exchange this path j sent = Normal response /\
         response_ok response = true /\
         JSON_parse (response_body response) = Abrupt e))).
Proof.
  destruct any as [j | thrown].
  - rewrite call_method_any_document. split.
    + intros H. right. exists j. split; [reflexivity |].
      apply (proj1 (call_method_document_throws j e) H).
    + intros [[H _] | (j' & [= <-] & H)]; [discriminate H |].
      apply (proj2 (call_method_document_throws j e) H).
  - rewrite call_method_any_unserialisable. cbn [fst].
    destruct (instanceof_TypeError thrown) eqn:Hty; split.
    + discriminate.
    + intros [[[= <-] H] | (j & H & _)]; [| discriminate H].
      rewrite Hty in H. discriminate H.
    + intros [= <-]. left. split; [reflexivity | exact Hty].
    + intros [[[= <-] _] | (j & H & _)]; [reflexivity | discriminate H].
Qed.

(** X2. What a returned result tells about the call: an [ok] is the
    decoded body of a 2xx response; an [err] of class ReprocaProtocolError
    means status 400, ReprocaUnauthorizedError status 401,
    ReprocaServerError another status outside 200..299; an [err] of class
    TypeError is the very value [fetch] rejected with, or the very value
    the serialisation of [params] threw, and then no request was sent. *)
Theorem call_method_result_provenance (any : Params)
  (r : ReprocaMethodResponse json) :
  fst (call_method_any this path any sent) = Normal r ->
  (forall v, ok r = Some v ->
     exists j response,
       any = Document j /\
       exchange this path j sent = Normal response /\
       response_ok response = true /\
       JSON_parse (response_body response) = Normal v) /\
  (forall e, err r = Some e ->
     match error_class e with
     | ReprocaProtocolError =>
         exists j response,
           any = Document j /\
           exchange this path j sent = Normal response /\
           status response = 400
     | ReprocaUnauthorizedError =>
         exists j response,
           any = Document j /\
           exchange this path j sent = Normal response /\
           status response = 401
     | ReprocaServerError =>
         exists j response,
           any = Document j /\
           exchange this path j sent = Normal response /\
           response_ok response = false /\
           status response <> 400 /\ status response <> 401
     | TypeError =>
         (exists j,
            any = Document j /\ exchange this path j sent = Abrupt e) \/
         (any = Unserialisable e /\
          snd (call_method_any this path any sent) = sent)
     | _ => False
     end).
Proof.
  destruct any as [j | thrown].
  - rewrite call_method_any_document. intros H.
    destruct (call_method_document_result j r H) as [Hok Herr].
    split.
    + intros v Hv. destruct (Hok v Hv) as (response & H1).
      exists j, response. split; [reflexivity | exact H1].
    + intros e He. specialize (Herr e He).
      destruct (error_class e); try exact Herr.
      * left. exists j. split; [reflexivity | exact Herr].
      * destruct Herr as (response & H1).
        exists j, response. split; [reflexivity | exact H1].
      * destruct Herr as (response & H1).
        exists j, response. split; [reflexivity | exact H1].
      * destruct Herr as (response & H1).
        exists j, response. split; [reflexivity | exact H1].
  - rewrite call_method_any_unserialisable. cbn [fst snd].
    destruct (instanceof_TypeError thrown) eqn:Hty; [| discriminate].
    intros [= <-]. split; [intros v [=] |].
    intros e [= <-]. unfold instanceof_TypeError in Hty.
    destruct (error_class thrown); try discriminate Hty.
    right. split; reflexivity.
Qed.

End CallMethodMore.

(** The two overloads of [reproca] build the same client. *)
Lemma reproca_overloads_agree (h : string) :
  reproca (HostString h) = reproca (Options h) /\
  host (reproca (Options h)) = h.
Proof. split; reflexivity. Qed.

Lemma call_method_throws_iff_witness :
  fst (@call_method_any demo_platform (reproca (HostString "http://api"))
         "/html" (Document JNull) [])
    = Abrupt (mkError SyntaxError "Unexpected token") /\
  fst (@call_method_any demo_platform (reproca (HostString "http://api"))
         "/html" (Unserialisable (mkError RangeError "toJSON")) [])
    = Abrupt (mkError RangeError "toJSON").
Proof.
  split.
  - apply (proj2 (@call_method_throws_iff demo_platform
                    (reproca (HostString "http://api")) "/html" []
                    (Document JNull)
                    (mkError SyntaxError "Unexpected token"))).
    right. exists JNull. split; [reflexivity |].
    right. exists (mkResponse 200 "<html>"). repeat split.
  - apply (proj2 (@call_method_throws_iff demo_platform
                    (reproca (HostString "http://api")) "/html" []
                    (Unserialisable (mkError RangeError "toJSON"))
                    (mkError RangeError "toJSON"))).
    left. split; reflexivity.
Defined.

Lemma call_method_result_provenance_witness :
  (exists j response,
     Document JNull = Document j /\
     @exchange demo_platform (reproca (Options "http://api")) "/private"
               j [] = Normal response /\
     status response = 401) /\
  ((exists j,
      Unserialisable (mkError TypeError "cyclic object value") = Document j /\
      @exchange demo_platform (reproca (Options "http://api")) "/private"
                j [] = Abrupt (mkError TypeError "cyclic object value")) \/
   (Unserialisable (mkError TypeError "cyclic object value") =
      Unserialisable (mkError TypeError "cyclic object value") /\
    snd (@call_method_any demo_platform (reproca (Options "http://api"))
           "/private"
           (Unserialisable (mkError TypeError "cyclic object value")) [])
      = [])).
Proof.
  split.
  - apply (proj2 (@call_method_result_provenance demo_platform
                    (reproca (Options "http://api")) "/private" []
                    (Document JNull)
                    (err_result (new ReprocaUnauthorizedError)) eq_refl)
             (new ReprocaUnauthorizedError) eq_refl).
  - apply (proj2 (@call_method_result_provenance demo_platform
                    (reproca (Options "http://api")) "/private" []
                    (Unserialisable
                       (mkError TypeError "cyclic object value"))
                    (err_result (mkError TypeError "cyclic object value"))
                    eq_refl)
             (mkError TypeError "cyclic object value") eq_refl).
Defined.

(* ================================================================== *)
(** * Lists keyed by an id *)

Section KeyedLists.
Context {A : Type}.
Variable key : A -> nat.

Lemma filter_keeps_distinct_keys (g : A -> bool) (l : list A) :
  NoDup (map key l) -> NoDup (map key (filter g l)).
Proof.
  induction l as [| y l IH]; cbn [map filter]; intros Hnd.
  - constructor.
  - apply NoDup_cons_iff in Hnd. destruct Hnd as [Hy Hnd].
    destruct (g y); cbn [map]; [| apply IH, Hnd].
    constructor; [| apply IH, Hnd].
    intros Hin. apply Hy. apply in_map_iff in Hin.
    destruct Hin as (z & Hz & Hin). apply filter_In in Hin.
    apply in_map_iff. exists z. split; [exact Hz | apply Hin].
Qed.




End KeyedLists.



Lemma find_promise_member {T : Type} (k : nat) (l : list (Promise T))
  (p : Promise T) :
  find_promise k l = Some p -> In p l /\ call_index p = k.
Proof.
  intros Hf. apply find_some in Hf. destruct Hf as [Hin Hk].
  split; [exact Hin | apply Nat.eqb_eq, Hk].
Qed.

Example equal_due_times_fire_oldest_first :
  sort_by_due [mkTimer 0 5; mkTimer 1 5; mkTimer 2 3] =
  [mkTimer 2 3; mkTimer 0 5; mkTimer 1 5].
Proof. reflexivity. Qed.

(* ================================================================== *)
(** * Timer ids and pending calls of the reference binding *)

Section ReferenceFresh.
Context {T : Type}.
Variable keeps : bool.
Variable imports : list Package.
Variable r : Renderer.
Variable rerenders_ : bool.
Variable producer : nat -> completion (ReprocaMethodResponse T).
Variable deps : option DependencyList.
Variable reload : option Z.

(** *** Pending promises stay those of distinct calls *)

Lemma call_producer_pending_fresh
  (w : World T (option (ReprocaMethodResponse T))) :
  pending_fresh producer w ->
  pending_fresh producer (call_producer producer w).
Proof.
  intros [Hnd Hall]. unfold pending_fresh.
  cbn [pending calls call_producer log].
  split.
  - rewrite map_app. apply NoDup_app; [exact Hnd | |].
    + cbn. constructor; [intros [] | constructor].
    + cbn [map call_index]. intros a Ha [<- | []]. apply in_map_iff in Ha.
      destruct Ha as (p & Hp & Hin).
      rewrite Forall_forall in Hall. destruct (Hall p Hin) as [Hlt _]. lia.
  - apply Forall_app. split.
    + eapply Forall_impl; [| exact Hall].
      intros p [Hlt Hs]. split; [lia | exact Hs].
    + constructor; [| constructor]. cbn. split; [lia | reflexivity].
Qed.

Lemma remove_promise_pending_fresh (k : nat)
  (w : World T (option (ReprocaMethodResponse T))) :
  pending_fresh producer w ->
  pending_fresh producer (set_pending (remove_promise k (pending w)) w).
Proof.
  intros [Hnd Hall]. unfold pending_fresh, remove_promise.
  cbn [pending calls set_pending]. split.
  - apply filter_keeps_distinct_keys, Hnd.
  - rewrite Forall_forall in *. intros p Hin. apply filter_In in Hin.
    apply Hall, Hin.
Qed.

Lemma run_cleanup_pending_fresh (c : option Cleanup)
  (w : World T (option (ReprocaMethodResponse T))) :
  pending_fresh producer w -> pending_fresh producer (run_cleanup c w).
Proof. intros H. destruct c as [[id] |]; exact H. Qed.

Lemma rerender_pending_fresh
  (w : World T (option (ReprocaMethodResponse T))) :
  pending_fresh producer w ->
  pending_fresh producer
    (rerender
       (Reference.binding keeps imports r rerenders_ producer deps reload) w).
Proof.
  intros H.
  destruct (rerender_cases keeps imports r rerenders_ producer deps reload w)
    as [-> | ->]; [exact H |].
  exact (call_producer_pending_fresh _
           (run_cleanup_pending_fresh (effect_cleanup w) w H)).
Qed.

Lemma binding_then_pending_fresh (value : ReprocaMethodResponse T)
  (w : World T (option (ReprocaMethodResponse T))) :
  pending_fresh producer w ->
  pending_fresh producer (fst (Reference.binding_then keeps reload value w)).
Proof.
  intros H. unfold pending_fresh in *.
  destruct (binding_then_rest keeps reload value w) as (-> & -> & _).
  exact H.
Qed.

Lemma fire_pending_fresh (tm : Timer)
  (w : World T (option (ReprocaMethodResponse T))) :
  pending_fresh producer w ->
  pending_fresh producer
    (fire (Reference.binding keeps imports r rerenders_ producer deps reload)
          tm w).
Proof.
  intros H. unfold fire. destruct (existsb _ _); [| exact H].
  cbn [fst hook_fetch Reference.binding].
  apply call_producer_pending_fresh. exact H.
Qed.

Lemma fire_all_pending_fresh (l : list Timer)
  (w : World T (option (ReprocaMethodResponse T))) :
  pending_fresh producer w ->
  pending_fresh producer
    (fold_left
       (fun w' tm =>
          fire (Reference.binding keeps imports r rerenders_ producer deps
                                  reload) tm w') l w).
Proof.
  revert w. induction l as [| tm l IH]; intros w H; cbn [fold_left].
  - exact H.
  - apply IH, fire_pending_fresh, H.
Qed.

Lemma step_pending_fresh (ev : Event)
  (w : World T (option (ReprocaMethodResponse T))) :
  pending_fresh producer w ->
  pending_fresh producer
    (step (Reference.binding keeps imports r rerenders_ producer deps reload)
          ev w).
Proof.
  intros H. destruct ev; cbn [step].
  - destruct (rendered w); [exact H |].
    destruct (renders _); [| exact H].
    exact (call_producer_pending_fresh w H).
  - destruct (mounted w); [| exact H].
    exact (call_producer_pending_fresh _
             (run_cleanup_pending_fresh (effect_cleanup w) w H)).
  - apply rerender_pending_fresh, H.
  - destruct (mounted w); [| exact H].
    exact (run_cleanup_pending_fresh (effect_cleanup w) w H).
  - destruct (rendered w); [| exact H].
    exact (call_producer_pending_fresh w H).
  - unfold settle. destruct (find_promise k (pending w)); [| exact H].
    pose proof (remove_promise_pending_fresh k w H) as H'.
    destruct (settlement p) as [value | e]; [| exact H'].
    cbn [hook_then hook_rerenders Reference.binding].
    pose proof (binding_then_pending_fresh value _ H') as H''.
    destruct rerenders_; [apply rerender_pending_fresh |]; exact H''.
  - unfold advance.
    exact (fire_all_pending_fresh _ w H).
Qed.

Lemma run_pending_fresh (evs : list Event)
  (w : World T (option (ReprocaMethodResponse T))) :
  pending_fresh producer w ->
  pending_fresh producer
    (run (Reference.binding keeps imports r rerenders_ producer deps reload)
         evs w).
Proof.
  unfold run. revert w.
  induction evs as [| ev evs IH]; intros w H; cbn [fold_left].
  - exact H.
  - apply IH, step_pending_fresh, H.
Qed.

(** *** Timer ids stay distinct *)








End ReferenceFresh.

(* ================================================================== *)
(** * Where the publications of the reference binding come from *)

Section Provenance.
Context {T : Type}.
Variable keeps : bool.
Variable imports : list Package.
Variable r : Renderer.
Variable rerenders_ : bool.
Variable producer : nat -> completion (ReprocaMethodResponse T).
Variable deps : option DependencyList.
Variable reload : option Z.

Lemma rerender_calls (w : World T (option (ReprocaMethodResponse T))) :
  (calls w <=
   calls (rerender
            (Reference.binding keeps imports r rerenders_ producer deps
                               reload) w))%nat /\
  Z.of_nat (calls (rerender
                     (Reference.binding keeps imports r rerenders_ producer
                                        deps reload) w)) -
  Z.of_nat (List.length
              (pending (rerender
                          (Reference.binding keeps imports r rerenders_
                                             producer deps reload) w)))
  = Z.of_nat (calls w) - Z.of_nat (List.length (pending w)).
Proof.
  destruct (rerender_cases keeps imports r rerenders_ producer deps reload w)
    as [-> | ->]; [split; [lia | reflexivity] |].
  destruct (effect_cleanup w) as [[id] |];
    cbn [run_cleanup clearTimeout set_effect_cleanup call_producer log
           set_timers calls pending];
    rewrite length_app; cbn [List.length]; split; lia.
Qed.

Lemma fire_calls_le (tm : Timer)
  (w : World T (option (ReprocaMethodResponse T))) :
  (calls w <=
   calls (fire (Reference.binding keeps imports r rerenders_ producer deps
                                  reload) tm w))%nat.
Proof.
  unfold fire. destruct (existsb _ _); [| lia].
  cbn [fst hook_fetch Reference.binding call_producer log calls set_timers
         set_now]. lia.
Qed.

Lemma fire_all_calls_le (l : list Timer)
  (w : World T (option (ReprocaMethodResponse T))) :
  (calls w <=
   calls (fold_left
            (fun w' tm =>
               fire (Reference.binding keeps imports r rerenders_ producer
                                       deps reload) tm w') l w))%nat.
Proof.
  revert w. induction l as [| tm l IH]; intros w; cbn [fold_left].
  - lia.
  - eapply Nat.le_trans; [apply (fire_calls_le tm) | apply IH].
Qed.

(** The calls made less the calls in flight: the calls that have settled. *)
Lemma fire_settled_calls (tm : Timer)
  (w : World T (option (ReprocaMethodResponse T))) :
  Z.of_nat (calls (fire (Reference.binding keeps imports r rerenders_
                                           producer deps reload) tm w)) -
  Z.of_nat (List.length
              (pending (fire (Reference.binding keeps imports r rerenders_
                                                producer deps reload) tm w)))
  = Z.of_nat (calls w) - Z.of_nat (List.length (pending w)).
Proof.
  unfold fire. destruct (existsb _ _); [| reflexivity].
  cbn [fst hook_fetch Reference.binding call_producer log calls pending
         set_timers set_now].
  rewrite length_app. cbn [List.length]. lia.
Qed.

Lemma find_promise_removed (k : nat) (l : list (Promise T)) (p : Promise T) :
  find_promise k l = Some p ->
  (S (List.length (remove_promise k l)) <= List.length l)%nat.
Proof.
  unfold find_promise, remove_promise.
  induction l as [| q l IH]; cbn [find filter]; [discriminate |].
  destruct (Nat.eqb (call_index q) k); cbn [negb List.length].
  - intros _.
    pose proof (filter_length_le
                  (fun p0 => negb (Nat.eqb (call_index p0) k)) l). lia.
  - intros Hf. specialize (IH Hf). lia.
Qed.

(** A step never lowers the number of calls, nor that of settled calls, and
    the settling of a pending call raises the latter. *)
Lemma step_settled_calls (ev : Event)
  (w : World T (option (ReprocaMethodResponse T))) :
  (calls w <=
   calls (step (Reference.binding keeps imports r rerenders_ producer deps
                                  reload) ev w))%nat /\
  Z.of_nat (calls w) - Z.of_nat (List.length (pending w)) <=
  Z.of_nat (calls (step (Reference.binding keeps imports r rerenders_
                                           producer deps reload) ev w)) -
  Z.of_nat (List.length
              (pending (step (Reference.binding keeps imports r rerenders_
                                                producer deps reload) ev w)))
  /\
  (forall k p, ev = Settle k -> find_promise k (pending w) = Some p ->
     Z.of_nat (calls w) - Z.of_nat (List.length (pending w)) + 1 <=
     Z.of_nat (calls (step (Reference.binding keeps imports r rerenders_
                                              producer deps reload) ev w)) -
     Z.of_nat (List.length
                 (pending (step (Reference.binding keeps imports r rerenders_
                                                   producer deps reload)
                                ev w)))).
Proof.
  destruct ev; cbn [step].
  - destruct (rendered w); [repeat split; try lia; discriminate |].
    destruct (renders _); [| repeat split; try lia; discriminate].
    cbn [run_effect hook_fetch Reference.binding set_effect_cleanup
           call_producer log set_mounted pending calls].
    rewrite length_app. cbn [List.length].
    repeat split; try lia; discriminate.
  - destruct (mounted w); [| repeat split; try lia; discriminate].
    destruct (effect_cleanup w) as [[id] |];
      cbn [run_cleanup clearTimeout run_effect hook_fetch Reference.binding
             set_effect_cleanup call_producer log set_timers pending calls];
      rewrite length_app; cbn [List.length];
      repeat split; try lia; discriminate.
  - destruct (rerender_calls w) as [Hle Hbal].
    repeat split; try lia; discriminate.
  - destruct (mounted w); [| repeat split; try lia; discriminate].
    destruct (effect_cleanup w) as [[id] |];
      cbn; repeat split; try lia; discriminate.
  - destruct (rendered w); [| repeat split; try lia; discriminate].
    cbn [fst hook_fetch Reference.binding call_producer log pending calls].
    rewrite length_app. cbn [List.length].
    repeat split; try lia; discriminate.
  - unfold settle.
    destruct (find_promise k (pending w)) as [p |] eqn:Hf;
      [| repeat split; try lia; intros k' p' [= <-] Hf';
         rewrite Hf in Hf'; discriminate Hf'].
    pose proof (find_promise_removed k _ p Hf) as Hrem.
    destruct (settlement p) as [value | e].
    + cbn [hook_then hook_rerenders Reference.binding].
      pose proof (binding_then_rest keeps reload value
                    (set_pending (remove_promise k (pending w)) w))
        as (Hp & Hc & _).
      pose proof (rerender_calls
                    (fst (Reference.binding_then keeps reload value
                            (set_pending (remove_promise k (pending w)) w))))
        as [Hle Hbal].
      rewrite Hp, Hc in Hbal. rewrite Hc in Hle.
      cbn [pending calls set_pending] in Hbal, Hle.
      destruct rerenders_.
      * repeat split; intros; lia.
      * rewrite Hp, Hc. cbn [pending calls set_pending].
        repeat split; intros; lia.
    + cbn [pending calls set_pending].
      repeat split; intros; lia.
  - unfold advance. cbn [pending calls set_now].
    pose proof (fire_all_preserves keeps imports r rerenders_ producer deps
                  reload
                  (fun w0 => Z.of_nat (calls w0) -
                             Z.of_nat (List.length (pending w0)))
                  fire_settled_calls
                  (sort_by_due
                     (filter (fun tm => due tm <=? now w + Z.max 0 dt)
                             (timers w))) w) as Hbal.
    cbn beta in Hbal.
    pose proof (fire_all_calls_le
                  (sort_by_due
                     (filter (fun tm => due tm <=? now w + Z.max 0 dt)
                             (timers w))) w) as Hle.
    repeat split; try lia; discriminate.
Qed.

(** No more values are published than calls have settled. *)
Lemma step_publications_count (ev : Event)
  (w : World T (option (ReprocaMethodResponse T))) :
  (List.length (publications w) + List.length (pending w) <= calls w)%nat ->
  (List.length
     (publications
        (step (Reference.binding keeps imports r rerenders_ producer deps
                                 reload) ev w)) +
   List.length
     (pending
        (step (Reference.binding keeps imports r rerenders_ producer deps
                                 reload) ev w))
   <= calls (step (Reference.binding keeps imports r rerenders_ producer deps
                                     reload) ev w))%nat.
Proof.
  intros Hw.
  destruct (step_settled_calls ev w) as (_ & Hbal & Hsettle).
  destruct (step_state_effect keeps imports r rerenders_ producer deps reload
              ev w)
    as [[_ Hpub] | (k & p & value & Hev & Hf & _ & _ & Hpub)];
    rewrite Hpub.
  - lia.
  - specialize (Hsettle k p Hev Hf).
    rewrite length_app. cbn [List.length]. lia.
Qed.

(** Every published value is what an earlier producer call settled with. *)
Lemma step_publications_sourced (ev : Event)
  (w : World T (option (ReprocaMethodResponse T))) :
  pending_fresh producer w ->
  Forall (fun v => exists k, (k < calls w)%nat /\ producer k = Normal v)
         (publications w) ->
  Forall (fun v => exists k,
            (k < calls (step (Reference.binding keeps imports r rerenders_
                                                producer deps reload) ev w))
              %nat /\
            producer k = Normal v)
         (publications
            (step (Reference.binding keeps imports r rerenders_ producer deps
                                     reload) ev w)).
Proof.
  intros [_ Hpall] Hw.
  destruct (step_settled_calls ev w) as (Hle & _ & _).
  assert (Hold : Forall (fun v => exists k,
               (k < calls (step (Reference.binding keeps imports r rerenders_
                                                   producer deps reload)
                                ev w))%nat /\
               producer k = Normal v) (publications w)).
  { eapply Forall_impl; [| exact Hw].
    intros v (k & Hk & Hv). exists k. split; [lia | exact Hv]. }
  destruct (step_state_effect keeps imports r rerenders_ producer deps reload
              ev w)
    as [[_ Hpub] | (k & p & value & -> & Hf & Hs & _ & Hpub)];
    rewrite Hpub; [exact Hold |].
  apply Forall_app. split; [exact Hold |].
  constructor; [| constructor].
  destruct (find_promise_member k _ p Hf) as [Hin Hk].
  rewrite Forall_forall in Hpall. destruct (Hpall p Hin) as [Hlt Hsp].
  exists (call_index p). split; [lia |]. rewrite <- Hsp. exact Hs.
Qed.

Lemma run_publications_sourced (evs : list Event)
  (w : World T (option (ReprocaMethodResponse T))) :
  pending_fresh producer w ->
  Forall (fun v => exists k, (k < calls w)%nat /\ producer k = Normal v)
         (publications w) ->
  (List.length (publications w) + List.length (pending w) <= calls w)%nat ->
  Forall (fun v => exists k,
            (k < calls (run (Reference.binding keeps imports r rerenders_
                                               producer deps reload) evs w))
              %nat /\
            producer k = Normal v)
         (publications
            (run (Reference.binding keeps imports r rerenders_ producer deps
                                    reload) evs w)) /\
  (List.length
     (publications
        (run (Reference.binding keeps imports r rerenders_ producer deps
                                reload) evs w)) +
   List.length
     (pending
        (run (Reference.binding keeps imports r rerenders_ producer deps
                                reload) evs w))
   <= calls (run (Reference.binding keeps imports r rerenders_ producer deps
                                    reload) evs w))%nat.
Proof.
  unfold run. revert w.
  induction evs as [| ev evs IH]; intros w Hp Hs Hc; cbn [fold_left].
  - split; assumption.
  - apply IH.
    + apply step_pending_fresh, Hp.
    + apply step_publications_sourced; assumption.
    + apply step_publications_count, Hc.
Qed.

End Provenance.

(* ================================================================== *)
(** * The reference binding with deps passed *)

Section DepsGiven.
Context {T : Type}.
Variable keeps : bool.
Variable imports : list Package.
Variable r : Renderer.
Variable rerenders_ : bool.
Variable producer : nat -> completion (ReprocaMethodResponse T).
Variable d : DependencyList.
Variable reload : option Z.

Lemma settle_deps_given (k : nat)
  (w : World T (option (ReprocaMethodResponse T))) :
  settle (Reference.binding keeps imports r rerenders_ producer (Some d)
                            reload) k w =
  match find_promise k (pending w) with
  | Some p =>
      match settlement p with
      | Normal value =>
          fst (Reference.binding_then keeps reload value
                 (set_pending (remove_promise k (pending w)) w))
      | Abrupt _ => set_pending (remove_promise k (pending w)) w
      end
  | None => w
  end.
Proof.
  destruct (find_promise k (pending w)) as [p |] eqn:Hf.
  - destruct (settlement p) as [value | e] eqn:Hs.
    + apply (settle_fulfilled_deps_given keeps imports r rerenders_ producer
               d reload k p value w Hf Hs).
    + unfold settle. rewrite Hf, Hs. reflexivity.
  - unfold settle. rewrite Hf. reflexivity.
Qed.

Lemma fire_phase (tm : Timer)
  (w : World T (option (ReprocaMethodResponse T))) :
  phase_of (fire (Reference.binding keeps imports r rerenders_ producer
                                    (Some d) reload) tm w) = phase_of w.
Proof. unfold fire. destruct (existsb _ _); reflexivity. Qed.

(** The instance goes from not mounted to alive to torn down. *)
Lemma step_phase (ev : Event)
  (w : World T (option (ReprocaMethodResponse T))) :
  forallb (serves r) imports = true ->
  phase_of (step (Reference.binding keeps imports r rerenders_ producer
                                    (Some d) reload) ev w) =
  next_phase (phase_of w) ev.
Proof.
  intros Hserved. destruct ev; cbn [step].
  - destruct w as [t c tms nt cs ps ec [|] [|] tr];
      unfold rendered, renders, phase_of;
      cbn [mounted torn_down orb hook_renderer hook_imports
             Reference.binding];
      rewrite ?Hserved; reflexivity.
  - destruct w as [t c tms nt cs ps [[id] |] [|] [|] tr]; reflexivity.
  - rewrite (rerender_deps_given keeps imports r rerenders_ producer
               (Some d) reload d w eq_refl).
    destruct w as [t c tms nt cs ps ec [|] [|] tr]; reflexivity.
  - destruct w as [t c tms nt cs ps [[id] |] [|] [|] tr]; reflexivity.
  - destruct w as [t c tms nt cs ps ec [|] [|] tr]; reflexivity.
  - rewrite settle_deps_given.
    assert (Hn : next_phase (phase_of w) (Settle k) = phase_of w).
    { destruct w as [t c tms nt cs ps ec [|] [|] tr]; reflexivity. }
    rewrite Hn.
    destruct (find_promise k (pending w)) as [p |]; [| reflexivity].
    destruct (settlement p) as [value | e]; [| reflexivity].
    unfold phase_of.
    destruct (binding_then_rest keeps reload value
                (set_pending (remove_promise k (pending w)) w))
      as (_ & _ & -> & -> & _).
    reflexivity.
  - unfold advance.
    change (phase_of (set_now ?t ?x)) with (phase_of x).
    rewrite (fire_all_preserves keeps imports r rerenders_ producer (Some d)
               reload phase_of fire_phase).
    destruct w as [t c tms nt cs ps ec [|] [|] tr]; reflexivity.
Qed.

(** *** No reload *)

Lemma step_no_reload (ev : Event)
  (w : World T (option (ReprocaMethodResponse T))) :
  forallb (serves r) imports = true ->
  truthy_number reload = false ->
  timers w = [] ->
  timers (step (Reference.binding keeps imports r rerenders_ producer
                                  (Some d) reload) ev w) = [] /\
  calls (step (Reference.binding keeps imports r rerenders_ producer
                                 (Some d) reload) ev w) =
    (calls w + (if triggers_fetch (phase_of w) ev then 1 else 0))%nat.
Proof.
  intros Hserved Hreload Ht. destruct ev; cbn [step].
  - destruct w as [t c tms nt cs ps ec [|] [|] tr];
      unfold rendered, renders, phase_of;
      cbn [mounted torn_down orb hook_renderer hook_imports
             Reference.binding];
      rewrite ?Hserved; cbn in Ht |- *; split; try assumption; lia.
  - destruct w as [t c tms nt cs ps [[id] |] [|] [|] tr];
      cbn in Ht |- *; subst tms; split; try reflexivity; lia.
  - rewrite (rerender_deps_given keeps imports r rerenders_ producer
               (Some d) reload d w eq_refl).
    split; [exact Ht |].
    destruct w as [t c tms nt cs ps ec [|] [|] tr]; cbn; lia.
  - destruct w as [t c tms nt cs ps [[id] |] [|] [|] tr];
      cbn in Ht |- *; subst tms; split; try reflexivity; lia.
  - destruct w as [t c tms nt cs ps ec [|] [|] tr];
      cbn in Ht |- *; split; try assumption; lia.
  - rewrite settle_deps_given.
    assert (Hz : forall n : nat,
               (n + (if triggers_fetch (phase_of w) (Settle k)
                     then 1 else 0))%nat = n).
    { intros n. destruct w as [t c tms nt cs ps ec [|] [|] tr]; cbn; lia. }
    rewrite Hz.
    destruct (find_promise k (pending w)) as [p |];
      [| split; [exact Ht | reflexivity]].
    destruct (settlement p) as [value | e];
      [| split; [exact Ht | reflexivity]].
    rewrite binding_then_timers.
    rewrite (proj1 (proj2 (binding_then_rest keeps reload value _))).
    rewrite Hreload. cbn. split; [exact Ht | reflexivity].
  - rewrite advance_idle by exact Ht. split; [exact Ht |].
    destruct w as [t c tms nt cs ps ec [|] [|] tr]; cbn; lia.
Qed.

Lemma run_no_reload (evs : list Event)
  (w : World T (option (ReprocaMethodResponse T))) :
  forallb (serves r) imports = true ->
  truthy_number reload = false ->
  timers w = [] ->
  timers (run (Reference.binding keeps imports r rerenders_ producer
                                 (Some d) reload) evs w) = [] /\
  calls (run (Reference.binding keeps imports r rerenders_ producer
                                (Some d) reload) evs w) =
    (calls w + fetch_triggers (phase_of w) evs)%nat.
Proof.
  intros Hserved Hreload. unfold run. revert w.
  induction evs as [| ev evs IH]; intros w Ht; cbn [fold_left fetch_triggers].
  - split; [exact Ht | lia].
  - destruct (step_no_reload ev w Hserved Hreload Ht) as [Ht' Hc].
    destruct (IH _ Ht') as [Ht'' Hc'].
    split; [exact Ht'' |].
    rewrite Hc', Hc, (step_phase ev w Hserved). lia.
Qed.

End DepsGiven.

(* ================================================================== *)
(** * What the reference binding has outstanding, deps passed *)

Section Outstanding.
Context {T : Type}.
Variable keeps : bool.
Variable imports : list Package.
Variable r : Renderer.
Variable rerenders_ : bool.
Variable producer : nat -> completion (ReprocaMethodResponse T).
Variable d : DependencyList.
Variable reload : option Z.

(** With nothing but automatic events, one thing at most is outstanding. *)
Lemma step_automatic_bounded (ev : Event)
  (w : World T (option (ReprocaMethodResponse T))) :
  automatic ev = true ->
  (outstanding w <= 1)%nat ->
  (outstanding
     (step (Reference.binding keeps imports r rerenders_ producer (Some d)
                              reload) ev w) <= 1)%nat.
Proof.
  intros Hauto Hw. unfold outstanding in *.
  destruct ev; try discriminate Hauto; cbn [step].
  - (* Render *)
    rewrite (rerender_deps_given keeps imports r rerenders_ producer
               (Some d) reload d w eq_refl). exact Hw.
  - (* Unmount *)
    destruct (mounted w); [| exact Hw].
    destruct (effect_cleanup w) as [[id] |]; [| exact Hw].
    cbn [run_cleanup clearTimeout log set_timers set_mounted set_torn_down
           set_effect_cleanup timers pending].
    pose proof (filter_length_le
                  (fun tm => negb (Nat.eqb (timer_id tm) id)) (timers w)).
    lia.
  - (* Settle *)
    rewrite settle_deps_given.
    destruct (find_promise k (pending w)) as [p |] eqn:Hf; [| exact Hw].
    destruct (find_promise_member k _ p Hf) as [Hin Hk].
    destruct (pending w) as [| q [| q' ps]] eqn:Hp;
      [destruct Hin | | cbn [List.length] in Hw; lia].
    destruct Hin as [-> | []].
    destruct (timers w) as [| tm tms] eqn:Ht;
      [| cbn [List.length] in Hw; lia].
    assert (Hrem : remove_promise k [p] = []).
    { unfold remove_promise. cbn [filter]. rewrite Hk, Nat.eqb_refl.
      reflexivity. }
    rewrite Hrem.
    destruct (settlement p) as [value | e].
    + rewrite binding_then_timers.
      rewrite (proj1 (binding_then_rest keeps reload value _)).
      cbn [timers pending set_pending]. rewrite Ht.
      destruct (truthy_number reload && truthy_object (err value));
        cbn; lia.
    + cbn [timers pending set_pending]. rewrite Ht. cbn. lia.
  - (* Tick *)
    destruct (timers w) as [| tm [| tm' tms]] eqn:Ht;
      [| | cbn [List.length] in Hw; lia].
    + rewrite advance_idle by exact Ht.
      cbn [timers pending set_now]. rewrite Ht. exact Hw.
    + destruct (pending w) as [| q ps] eqn:Hp;
        [| cbn [List.length] in Hw; lia].
      destruct (Z_lt_le_dec (now w + Z.max 0 dt) (due tm)) as [Hlt | Hle].
      * rewrite (advance_not_due _ _ _ _ _ _ _ dt tm) by assumption.
        cbn [timers pending set_now]. rewrite Ht, Hp. cbn. lia.
      * rewrite (advance_fires_single _ _ _ _ _ _ _ dt tm) by assumption.
        cbn [timers pending set_now call_producer log set_timers].
        rewrite Hp. cbn. lia.
Qed.

Lemma run_automatic_bounded (evs : list Event)
  (w : World T (option (ReprocaMethodResponse T))) :
  forallb automatic evs = true ->
  (outstanding w <= 1)%nat ->
  (outstanding
     (run (Reference.binding keeps imports r rerenders_ producer (Some d)
                             reload) evs w) <= 1)%nat.
Proof.
  unfold run. revert w.
  induction evs as [| ev evs IH]; intros w Hauto Hw; cbn [fold_left].
  - exact Hw.
  - cbn [forallb] in Hauto. apply andb_true_iff in Hauto.
    destruct Hauto as [Hev Hevs].
    apply IH; [exact Hevs | apply step_automatic_bounded; assumption].
Qed.

(** With nothing outstanding, automatic events change the clock at most. *)
Lemma step_automatic_quiet (ev : Event)
  (w : World T (option (ReprocaMethodResponse T))) :
  automatic ev = true ->
  timers w = [] -> pending w = [] ->
  timers (step (Reference.binding keeps imports r rerenders_ producer
                                  (Some d) reload) ev w) = [] /\
  pending (step (Reference.binding keeps imports r rerenders_ producer
                                   (Some d) reload) ev w) = [] /\
  calls (step (Reference.binding keeps imports r rerenders_ producer
                                 (Some d) reload) ev w) = calls w /\
  cell (step (Reference.binding keeps imports r rerenders_ producer
                                (Some d) reload) ev w) = cell w /\
  publications (step (Reference.binding keeps imports r rerenders_ producer
                                        (Some d) reload) ev w)
    = publications w.
Proof.
  intros Hauto Ht Hp.
  destruct ev; try discriminate Hauto; cbn [step].
  - rewrite (rerender_deps_given keeps imports r rerenders_ producer
               (Some d) reload d w eq_refl).
    repeat split; assumption.
  - destruct (mounted w); [| repeat split; assumption].
    destruct (effect_cleanup w) as [[id] |]; [| repeat split; assumption].
    repeat split; try assumption.
    + cbn [run_cleanup clearTimeout log set_timers set_mounted set_torn_down
             set_effect_cleanup timers].
      rewrite Ht. reflexivity.
    + exact (run_cleanup_publications (Some (ClearTimeout id)) w).
  - unfold settle. rewrite Hp. cbn [find_promise find].
    repeat split; assumption.
  - rewrite advance_idle by exact Ht. repeat split; assumption.
Qed.

Lemma run_automatic_quiet (evs : list Event)
  (w : World T (option (ReprocaMethodResponse T))) :
  forallb automatic evs = true ->
  timers w = [] -> pending w = [] ->
  timers (run (Reference.binding keeps imports r rerenders_ producer
                                 (Some d) reload) evs w) = [] /\
  pending (run (Reference.binding keeps imports r rerenders_ producer
                                  (Some d) reload) evs w) = [] /\
  calls (run (Reference.binding keeps imports r rerenders_ producer
                                (Some d) reload) evs w) = calls w /\
  cell (run (Reference.binding keeps imports r rerenders_ producer
                               (Some d) reload) evs w) = cell w /\
  publications (run (Reference.binding keeps imports r rerenders_ producer
                                       (Some d) reload) evs w)
    = publications w.
Proof.
  unfold run. revert w.
  induction evs as [| ev evs IH]; intros w Hauto Ht Hp; cbn [fold_left].
  - repeat split; assumption.
  - cbn [forallb] in Hauto. apply andb_true_iff in Hauto.
    destruct Hauto as [Hev Hevs].
    destruct (step_automatic_quiet ev w Hev Ht Hp)
      as (Ht' & Hp' & Hc & Hs & Hpub).
    destruct (IH _ Hevs Ht' Hp') as (H1 & H2 & H3 & H4 & H5).
    rewrite H3, H4, H5, Hc, Hs, Hpub. repeat split; assumption.
Qed.

(** A rejected call on the automatic path leaves nothing outstanding, and
    automatic events bring nothing back. *)
Lemma rejection_goes_quiet
  (w : World T (option (ReprocaMethodResponse T)))
  (k : nat) (p : Promise T) (e : Error) (evs : list Event) :
  (outstanding w <= 1)%nat ->
  find_promise k (pending w) = Some p ->
  settlement p = Abrupt e ->
  forallb automatic evs = true ->
  timers (run (Reference.binding keeps imports r rerenders_ producer
                                 (Some d) reload) (Settle k :: evs) w) = [] /\
  pending (run (Reference.binding keeps imports r rerenders_ producer
                                  (Some d) reload) (Settle k :: evs) w) = [] /\
  calls (run (Reference.binding keeps imports r rerenders_ producer
                                (Some d) reload) (Settle k :: evs) w)
    = calls w /\
  cell (run (Reference.binding keeps imports r rerenders_ producer
                               (Some d) reload) (Settle k :: evs) w)
    = cell w /\
  publications (run (Reference.binding keeps imports r rerenders_ producer
                                       (Some d) reload) (Settle k :: evs) w)
    = publications w.
Proof.
  intros Hw Hf Hs Hauto.
  destruct (find_promise_member k _ p Hf) as [Hin Hk].
  unfold outstanding in Hw.
  destruct (pending w) as [| q [| q' ps]] eqn:Hp;
    [destruct Hin | | cbn [List.length] in Hw; lia].
  destruct Hin as [-> | []].
  destruct (timers w) as [| tm tms] eqn:Ht; [| cbn [List.length] in Hw; lia].
  change (run (Reference.binding keeps imports r rerenders_ producer
                                 (Some d) reload) (Settle k :: evs) w)
    with (run (Reference.binding keeps imports r rerenders_ producer
                                 (Some d) reload) evs
              (settle (Reference.binding keeps imports r rerenders_ producer
                                         (Some d) reload) k w)).
  assert (Hrem : remove_promise k [p] = []).
  { unfold remove_promise. cbn [filter]. rewrite Hk, Nat.eqb_refl.
    reflexivity. }
  unfold settle. rewrite Hp, Hf, Hs, Hrem.
  apply (run_automatic_quiet evs (set_pending [] w) Hauto Ht eq_refl).
Qed.

End Outstanding.

(* ================================================================== *)
(** * Retry loops of a producer that keeps failing, deps passed *)

Section FailingLoops.
Context {T : Type}.
Variable keeps : bool.
Variable imports : list Package.
Variable r : Renderer.
Variable rerenders_ : bool.
Variable producer : nat -> completion (ReprocaMethodResponse T).
Variable d : DependencyList.
Variable R : Z.
Hypothesis served : forallb (serves r) imports = true.
Hypothesis R_truthy : R <> 0.
Hypothesis always_fails_ :
  forall k, exists res e, producer k = Normal res /\ err res = Some e.





End FailingLoops.

(* ================================================================== *)
(** * The state against the publications *)

Section LastPublished.
Context {T : Type}.
Variable keeps : bool.
Variable imports : list Package.
Variable r : Renderer.
Variable rerenders_ : bool.
Variable producer : nat -> completion (ReprocaMethodResponse T).
Variable deps : option DependencyList.
Variable reload : option Z.

Lemma run_cleanup_flags (c : option Cleanup)
  (w : World T (option (ReprocaMethodResponse T))) :
  mounted (run_cleanup c w) = mounted w /\
  torn_down (run_cleanup c w) = torn_down w.
Proof. destruct c as [[id] |]; split; reflexivity. Qed.

Lemma rerender_flags (w : World T (option (ReprocaMethodResponse T))) :
  mounted
    (rerender
       (Reference.binding keeps imports r rerenders_ producer deps reload) w)
  = mounted w /\
  torn_down
    (rerender
       (Reference.binding keeps imports r rerenders_ producer deps reload) w)
  = torn_down w.
Proof.
  destruct (rerender_cases keeps imports r rerenders_ producer deps reload w)
    as [-> | ->]; [split; reflexivity |].
  exact (run_cleanup_flags (effect_cleanup w) w).
Qed.

Lemma settle_flags (k : nat)
  (w : World T (option (ReprocaMethodResponse T))) :
  mounted
    (settle (Reference.binding keeps imports r rerenders_ producer deps
                               reload) k w) = mounted w /\
  torn_down
    (settle (Reference.binding keeps imports r rerenders_ producer deps
                               reload) k w) = torn_down w.
Proof.
  destruct (find_promise k (pending w)) as [p |] eqn:Hf.
  - destruct (settlement p) as [value | e] eqn:Hs.
    + rewrite (settle_fulfilled keeps imports r rerenders_ producer deps
                 reload k p value w Hf Hs).
      pose proof (rerender_flags
                    (fst (Reference.binding_then keeps reload value
                            (set_pending (remove_promise k (pending w)) w))))
        as [Hm Ht].
      destruct (binding_then_rest keeps reload value
                  (set_pending (remove_promise k (pending w)) w))
        as (_ & _ & Hm' & Ht' & _).
      rewrite Hm' in Hm. rewrite Ht' in Ht.
      destruct rerenders_; split; assumption.
    + unfold settle. rewrite Hf, Hs. split; reflexivity.
  - unfold settle. rewrite Hf. split; reflexivity.
Qed.

Lemma fire_mounted (tm : Timer)
  (w : World T (option (ReprocaMethodResponse T))) :
  mounted (fire (Reference.binding keeps imports r rerenders_ producer deps
                                   reload) tm w) = mounted w.
Proof. unfold fire. destruct (existsb _ _); reflexivity. Qed.

Lemma fire_torn_down (tm : Timer)
  (w : World T (option (ReprocaMethodResponse T))) :
  torn_down (fire (Reference.binding keeps imports r rerenders_ producer
                                     deps reload) tm w) = torn_down w.
Proof. unfold fire. destruct (existsb _ _); reflexivity. Qed.

Lemma advance_flags (dt : Z)
  (w : World T (option (ReprocaMethodResponse T))) :
  mounted
    (advance (Reference.binding keeps imports r rerenders_ producer deps
                                reload) dt w) = mounted w /\
  torn_down
    (advance (Reference.binding keeps imports r rerenders_ producer deps
                                reload) dt w) = torn_down w.
Proof.
  unfold advance. cbn [mounted torn_down set_now]. split.
  - apply (fire_all_preserves keeps imports r rerenders_ producer deps
             reload mounted fire_mounted).
  - apply (fire_all_preserves keeps imports r rerenders_ producer deps
             reload torn_down fire_torn_down).
Qed.

(** An instance torn down stays torn down. *)
Lemma step_torn_down_kept (ev : Event)
  (w : World T (option (ReprocaMethodResponse T))) :
  torn_down w = true ->
  torn_down (step (Reference.binding keeps imports r rerenders_ producer
                                     deps reload) ev w) = true.
Proof.
  intros Ht. destruct ev; cbn [step].
  - unfold rendered. rewrite Ht, orb_true_r. exact Ht.
  - destruct (mounted w); [| exact Ht].
    rewrite <- Ht. exact (proj2 (run_cleanup_flags (effect_cleanup w) w)).
  - rewrite (proj2 (rerender_flags w)). exact Ht.
  - destruct (mounted w); [reflexivity | exact Ht].
  - destruct (rendered w); exact Ht.
  - rewrite (proj2 (settle_flags k w)). exact Ht.
  - rewrite (proj2 (advance_flags dt w)). exact Ht.
Qed.

(** Before the first commit nothing is in flight, and nothing gets there
    but through the first commit. *)
Lemma step_dormant (ev : Event)
  (w : World T (option (ReprocaMethodResponse T))) :
  rendered (step (Reference.binding keeps imports r rerenders_ producer
                                    deps reload) ev w) = false ->
  rendered w = false /\
  (pending w = [] -> timers w = [] ->
   pending (step (Reference.binding keeps imports r rerenders_ producer
                                    deps reload) ev w) = [] /\
   timers (step (Reference.binding keeps imports r rerenders_ producer
                                   deps reload) ev w) = []).
Proof.
  destruct ev; cbn [step].
  - destruct w as [t c tms nt cs ps ec [|] [|] tr];
      unfold rendered, renders;
      cbn [mounted torn_down orb hook_renderer hook_imports
             Reference.binding];
      try destruct (forallb (serves r) imports);
      cbn; intros H; try discriminate H;
      (split; [reflexivity | intros Hp Ht; split; assumption]).
  - destruct w as [t c tms nt cs ps [[id] |] [|] [|] tr];
      cbn; intros H; try discriminate H;
      (split; [reflexivity | intros Hp Ht; split; assumption]).
  - unfold rendered at 1. destruct (rerender_flags w) as [-> ->].
    intros H. split; [exact H |].
    apply orb_false_iff in H. destruct H as [Hm _].
    unfold rerender. rewrite Hm. intros Hp Ht; split; assumption.
  - destruct w as [t c tms nt cs ps [[id] |] [|] [|] tr];
      cbn; intros H; try discriminate H;
      (split; [reflexivity | intros Hp Ht; split; assumption]).
  - destruct w as [t c tms nt cs ps ec [|] [|] tr];
      cbn; intros H; try discriminate H;
      (split; [reflexivity | intros Hp Ht; split; assumption]).
  - unfold rendered at 1. destruct (settle_flags k w) as [-> ->].
    intros H. split; [exact H |].
    intros Hp Ht. unfold settle. rewrite Hp. cbn [find_promise find].
    split; assumption.
  - unfold rendered at 1. destruct (advance_flags dt w) as [-> ->].
    intros H. split; [exact H |].
    intros Hp Ht. rewrite advance_idle by exact Ht. split; assumption.
Qed.

Lemma last_published_snoc (value : ReprocaMethodResponse T)
  (w w' : World T (option (ReprocaMethodResponse T))) :
  publications w' = publications w ++ [value] ->
  last_published w' = Some value.
Proof.
  intros H. unfold last_published. rewrite H, map_app. apply last_last.
Qed.

(** The state is the value published last where the container takes the
    value whenever it is published: always for one that keeps after
    teardown, until teardown for the other. *)
Lemma step_shows_last_published (ev : Event)
  (w : World T (option (ReprocaMethodResponse T))) :
  (keeps = true \/ torn_down w = false -> cell w = last_published w) ->
  (rendered w = false -> pending w = [] /\ timers w = []) ->
  (keeps = true \/
   torn_down (step (Reference.binding keeps imports r rerenders_ producer
                                      deps reload) ev w) = false ->
   cell (step (Reference.binding keeps imports r rerenders_ producer deps
                                 reload) ev w) =
   last_published
     (step (Reference.binding keeps imports r rerenders_ producer deps
                              reload) ev w)) /\
  (rendered (step (Reference.binding keeps imports r rerenders_ producer
                                     deps reload) ev w) = false ->
   pending (step (Reference.binding keeps imports r rerenders_ producer
                                    deps reload) ev w) = [] /\
   timers (step (Reference.binding keeps imports r rerenders_ producer
                                   deps reload) ev w) = []).
Proof.
  intros Hshow Hdormant. split.
  - intros Hk.
    assert (Hk' : keeps = true \/ torn_down w = false).
    { destruct Hk as [Hk | Hk]; [left; exact Hk | right].
      destruct (torn_down w) eqn:Ht; [| reflexivity].
      rewrite (step_torn_down_kept ev w Ht) in Hk. discriminate Hk. }
    destruct (step_state_effect keeps imports r rerenders_ producer deps
                reload ev w)
      as [[Hc Hp] | (k & p & value & _ & Hf & _ & Hc & Hp)].
    + rewrite Hc. unfold last_published. rewrite Hp. apply Hshow, Hk'.
    + rewrite Hc, (last_published_snoc value w _ Hp).
      destruct keeps; [reflexivity |].
      destruct Hk' as [Hk' | Ht]; [discriminate Hk' |].
      destruct (mounted w) eqn:Hm; [reflexivity |].
      destruct Hdormant as [Hpend _].
      { unfold rendered. rewrite Hm, Ht. reflexivity. }
      rewrite Hpend in Hf. discriminate Hf.
  - intros Hr. destruct (step_dormant ev w Hr) as [Hr' Hquiet].
    destruct (Hdormant Hr') as [Hp Ht]. apply Hquiet; assumption.
Qed.

Lemma run_shows_last_published (evs : list Event)
  (w : World T (option (ReprocaMethodResponse T))) :
  (keeps = true \/ torn_down w = false -> cell w = last_published w) ->
  (rendered w = false -> pending w = [] /\ timers w = []) ->
  keeps = true \/
  torn_down (run (Reference.binding keeps imports r rerenders_ producer
                                    deps reload) evs w) = false ->
  cell (run (Reference.binding keeps imports r rerenders_ producer deps
                               reload) evs w) =
  last_published
    (run (Reference.binding keeps imports r rerenders_ producer deps
                            reload) evs w).
Proof.
  unfold run. revert w.
  induction evs as [| ev evs IH]; intros w Hshow Hdormant; cbn [fold_left].
  - exact Hshow.
  - destruct (step_shows_last_published ev w Hshow Hdormant) as [H1 H2].
    apply IH; assumption.
Qed.

End LastPublished.

(* ================================================================== *)
(** * Further properties of the four hooks *)

(** What a hook's world holds beside the container is what the reference
    binding's world holds. *)
Section ThroughView.
Context {T : Type}.
Variables (v : Variant) (c : Component).
Variable producer : nat -> completion (ReprocaMethodResponse T).
Variables (deps : option DependencyList) (reload : option Z).
Variable evs : list Event.

Lemma reachable_timers :
  timers (run (hook_of v c producer deps reload) evs
              (initial (hook_of v c producer deps reload))) =
  timers (run (Reference.binding (keeps_after_teardown v)
                 (hook_imports (hook_of v c producer deps reload))
                 (renderer c)
                 (hook_rerenders (hook_of v c producer deps reload))
                 producer deps reload)
              evs
              (initial (Reference.binding (keeps_after_teardown v)
                          (hook_imports (hook_of v c producer deps reload))
                          (renderer c)
                          (hook_rerenders (hook_of v c producer deps reload))
                          producer deps reload))).
Proof. rewrite <- hook_of_reachable_view. reflexivity. Qed.

Lemma reachable_pending :
  pending (run (hook_of v c producer deps reload) evs
               (initial (hook_of v c producer deps reload))) =
  pending (run (Reference.binding (keeps_after_teardown v)
                  (hook_imports (hook_of v c producer deps reload))
                  (renderer c)
                  (hook_rerenders (hook_of v c producer deps reload))
                  producer deps reload)
               evs
               (initial (Reference.binding (keeps_after_teardown v)
                           (hook_imports (hook_of v c producer deps reload))
                           (renderer c)
                           (hook_rerenders (hook_of v c producer deps reload))
                           producer deps reload))).
Proof. rewrite <- hook_of_reachable_view. reflexivity. Qed.

Lemma reachable_calls :
  calls (run (hook_of v c producer deps reload) evs
             (initial (hook_of v c producer deps reload))) =
  calls (run (Reference.binding (keeps_after_teardown v)
                (hook_imports (hook_of v c producer deps reload))
                (renderer c)
                (hook_rerenders (hook_of v c producer deps reload))
                producer deps reload)
             evs
             (initial (Reference.binding (keeps_after_teardown v)
                         (hook_imports (hook_of v c producer deps reload))
                         (renderer c)
                         (hook_rerenders (hook_of v c producer deps reload))
                         producer deps reload))).
Proof. rewrite <- hook_of_reachable_view. reflexivity. Qed.

Lemma reachable_publications :
  publications (run (hook_of v c producer deps reload) evs
                    (initial (hook_of v c producer deps reload))) =
  publications
    (run (Reference.binding (keeps_after_teardown v)
            (hook_imports (hook_of v c producer deps reload))
            (renderer c)
            (hook_rerenders (hook_of v c producer deps reload))
            producer deps reload)
         evs
         (initial (Reference.binding (keeps_after_teardown v)
                     (hook_imports (hook_of v c producer deps reload))
                     (renderer c)
                     (hook_rerenders (hook_of v c producer deps reload))
                     producer deps reload))).
Proof. rewrite <- hook_of_reachable_view. reflexivity. Qed.

Lemma reachable_torn_down :
  torn_down (run (hook_of v c producer deps reload) evs
                 (initial (hook_of v c producer deps reload))) =
  torn_down
    (run (Reference.binding (keeps_after_teardown v)
            (hook_imports (hook_of v c producer deps reload))
            (renderer c)
            (hook_rerenders (hook_of v c producer deps reload))
            producer deps reload)
         evs
         (initial (Reference.binding (keeps_after_teardown v)
                     (hook_imports (hook_of v c producer deps reload))
                     (renderer c)
                     (hook_rerenders (hook_of v c producer deps reload))
                     producer deps reload))).
Proof. rewrite <- hook_of_reachable_view. reflexivity. Qed.

Lemma reachable_observed :
  observed (hook_of v c producer deps reload)
    (run (hook_of v c producer deps reload) evs
         (initial (hook_of v c producer deps reload))) =
  cell (run (Reference.binding (keeps_after_teardown v)
               (hook_imports (hook_of v c producer deps reload))
               (renderer c)
               (hook_rerenders (hook_of v c producer deps reload))
               producer deps reload)
            evs
            (initial (Reference.binding (keeps_after_teardown v)
                        (hook_imports (hook_of v c producer deps reload))
                        (renderer c)
                        (hook_rerenders (hook_of v c producer deps reload))
                        producer deps reload))).
Proof. rewrite <- hook_of_reachable_view. reflexivity. Qed.

End ThroughView.

(** X4. Where the renderer serves the hook's imports and deps are passed,
    with no reload, or a reload of 0, no timer is ever set, and the
    producer is called once for the first commit, once for each change of
    deps while alive and once for each manual fetch after the first
    render, and at no other time, whatever its calls settle with. *)
Theorem no_reload_calls_only_on_trigger {T : Type} (v : Variant)
  (c : Component) (producer : nat -> completion (ReprocaMethodResponse T))
  (d : DependencyList) (reload : option Z) (evs : list Event) :
  renders (hook_of v c producer (Some d) reload) = true ->
  truthy_number reload = false ->
  timers (run (hook_of v c producer (Some d) reload) evs
              (initial (hook_of v c producer (Some d) reload))) = [] /\
  calls (run (hook_of v c producer (Some d) reload) evs
             (initial (hook_of v c producer (Some d) reload))) =
    fetch_triggers NotMounted evs.
Proof.
  intros Hserved Hreload. rewrite renders_hook_of in Hserved.
  rewrite reachable_timers, reachable_calls.
  exact (run_no_reload _ _ _ _ producer d reload evs (initial _)
           Hserved Hreload eq_refl).
Qed.

(** X5. With deps passed, from the first commit on, as long as nothing
    happens but promises settling, time passing, re-renders with the same
    deps and teardown, the binding has at most one thing outstanding: one
    call in flight or one timer pending, never both, for any producer and
    any reload. *)
Theorem automatic_path_one_outstanding {T : Type} (v : Variant)
  (c : Component) (producer : nat -> completion (ReprocaMethodResponse T))
  (d : DependencyList) (reload : option Z) (evs : list Event) :
  forallb automatic evs = true ->
  (outstanding (run (hook_of v c producer (Some d) reload) (Mount :: evs)
                    (initial (hook_of v c producer (Some d) reload)))
   <= 1)%nat.
Proof.
  intros Hauto. unfold outstanding.
  rewrite reachable_timers, reachable_pending.
  apply (run_automatic_bounded _ _ _ _ producer d reload evs _ Hauto).
  cbn [step]. unfold rendered, outstanding. cbn [initial mounted torn_down orb].
  destruct (renders _); cbn; lia.
Qed.

(** X6. With deps passed, on the automatic path, when the call in flight
    is rejected nothing is published, no timer is set, and nothing is left
    outstanding: no later settling, passing of time, re-render with the
    same deps or teardown calls the producer again or changes the state,
    even with a reload. *)
Theorem rejected_call_ends_retries {T : Type} (v : Variant)
  (c : Component) (producer : nat -> completion (ReprocaMethodResponse T))
  (d : DependencyList) (reload : option Z) (evs evs' : list Event)
  (k : nat) (p : Promise T) (e : Error) :
  forallb automatic evs = true ->
  forallb automatic evs' = true ->
  find_promise k
    (pending (run (hook_of v c producer (Some d) reload) (Mount :: evs)
                  (initial (hook_of v c producer (Some d) reload))))
    = Some p ->
  settlement p = Abrupt e ->
  timers (run (hook_of v c producer (Some d) reload)
              ((Mount :: evs) ++ Settle k :: evs')
              (initial (hook_of v c producer (Some d) reload))) = [] /\
  pending (run (hook_of v c producer (Some d) reload)
               ((Mount :: evs) ++ Settle k :: evs')
               (initial (hook_of v c producer (Some d) reload))) = [] /\
  calls (run (hook_of v c producer (Some d) reload)
             ((Mount :: evs) ++ Settle k :: evs')
             (initial (hook_of v c producer (Some d) reload))) =
    calls (run (hook_of v c producer (Some d) reload) (Mount :: evs)
               (initial (hook_of v c producer (Some d) reload))) /\
  observed (hook_of v c producer (Some d) reload)
    (run (hook_of v c producer (Some d) reload)
         ((Mount :: evs) ++ Settle k :: evs')
         (initial (hook_of v c producer (Some d) reload))) =
    observed (hook_of v c producer (Some d) reload)
      (run (hook_of v c producer (Some d) reload) (Mount :: evs)
           (initial (hook_of v c producer (Some d) reload))) /\
  publications (run (hook_of v c producer (Some d) reload)
                    ((Mount :: evs) ++ Settle k :: evs')
                    (initial (hook_of v c producer (Some d) reload))) =
    publications (run (hook_of v c producer (Some d) reload) (Mount :: evs)
                      (initial (hook_of v c producer (Some d) reload))).
Proof.
  intros Hauto Hauto' Hf Hs.
  rewrite reachable_pending in Hf.
  rewrite !reachable_timers, !reachable_pending, !reachable_calls,
    !reachable_observed, !reachable_publications.
  rewrite run_app.
  apply (rejection_goes_quiet _ _ _ _ producer d reload _ k p e evs');
    try assumption.
  apply (run_automatic_bounded _ _ _ _ producer d reload evs _ Hauto).
  cbn [step]. unfold rendered, outstanding. cbn [initial mounted torn_down orb].
  destruct (renders _); cbn; lia.
Qed.

(** X7. After any events of one component instance, the state
    [useMethodSignal] shows is the value published last, undefined if none
    was: whichever call settles last wins. The same holds of [useMethod]
    until teardown, after which the framework drops what is published. *)
Theorem state_is_last_published {T : Type} (v : Variant) (c : Component)
  (producer : nat -> completion (ReprocaMethodResponse T))
  (deps : option DependencyList) (reload : option Z) (evs : list Event) :
  keeps_after_teardown v = true \/
  torn_down (run (hook_of v c producer deps reload) evs
                 (initial (hook_of v c producer deps reload))) = false ->
  observed (hook_of v c producer deps reload)
    (run (hook_of v c producer deps reload) evs
         (initial (hook_of v c producer deps reload))) =
  last_published (run (hook_of v c producer deps reload) evs
                      (initial (hook_of v c producer deps reload))).
Proof.
  intros Hk. unfold last_published.
  rewrite reachable_torn_down in Hk.
  rewrite reachable_observed, reachable_publications.
  apply (run_shows_last_published _ _ _ _ producer deps reload evs _).
  - intros _. reflexivity.
  - intros _. split; reflexivity.
  - exact Hk.
Qed.

(** X8. After any events, every value a hook has published is the value
    some producer call already made was fulfilled with, and the values
    published and the calls still in flight together are no more than the
    calls made: a call is published once at most. *)
Theorem publications_come_from_producer {T : Type} (v : Variant)
  (c : Component) (producer : nat -> completion (ReprocaMethodResponse T))
  (deps : option DependencyList) (reload : option Z) (evs : list Event) :
  Forall (fun value =>
            exists k,
              (k < calls (run (hook_of v c producer deps reload) evs
                              (initial (hook_of v c producer deps reload))))
                %nat /\
              producer k = Normal value)
         (publications (run (hook_of v c producer deps reload) evs
                            (initial (hook_of v c producer deps reload)))) /\
  (List.length
     (publications (run (hook_of v c producer deps reload) evs
                        (initial (hook_of v c producer deps reload)))) +
   List.length
     (pending (run (hook_of v c producer deps reload) evs
                   (initial (hook_of v c producer deps reload))))
   <= calls (run (hook_of v c producer deps reload) evs
                 (initial (hook_of v c producer deps reload))))%nat.
Proof.
  rewrite reachable_publications, reachable_pending, reachable_calls.
  apply (run_publications_sourced _ _ _ _ producer deps reload evs _).
  - split; [constructor | constructor].
  - constructor.
  - cbn. lia.
Qed.


(** X10. Within one component instance, only the settling of a fulfilled
    call changes the state a hook shows, and then to the value of that
    call: a first commit, a change of deps, a re-render, a manual fetch, a
    timer, a rejection or teardown leaves it as it is. So once a result is
    shown the state of that instance is never undefined again. *)
Theorem state_changes_only_on_fulfilment {T : Type} (v : Variant)
  (c : Component) (producer : nat -> completion (ReprocaMethodResponse T))
  (deps : option DependencyList) (reload : option Z)
  (w : World T (container T v)) :
  (forall ev,
     observed (hook_of v c producer deps reload)
              (step (hook_of v c producer deps reload) ev w) <>
     observed (hook_of v c producer deps reload) w ->
     exists k p value,
       ev = Settle k /\ find_promise k (pending w) = Some p /\
       settlement p = Normal value /\
       observed (hook_of v c producer deps reload)
                (step (hook_of v c producer deps reload) ev w) = Some value) /\
  (forall evs,
     observed (hook_of v c producer deps reload) w <> None ->
     observed (hook_of v c producer deps reload)
              (run (hook_of v c producer deps reload) evs w) <> None).
Proof.
  split.
  - intros ev Hne.
    change (cell (view (hook_of v c producer deps reload)
                    (step (hook_of v c producer deps reload) ev w)) <>
            cell (view (hook_of v c producer deps reload) w)) in Hne.
    change (exists k p value,
              ev = Settle k /\
              find_promise k
                (pending (view (hook_of v c producer deps reload) w))
                = Some p /\
              settlement p = Normal value /\
              cell (view (hook_of v c producer deps reload)
                      (step (hook_of v c producer deps reload) ev w))
                = Some value).
    rewrite hook_of_view_step in *.
    destruct (step_state_effect (keeps_after_teardown v)
                (hook_imports (hook_of v c producer deps reload))
                (renderer c)
                (hook_rerenders (hook_of v c producer deps reload))
                producer deps reload ev
                (view (hook_of v c producer deps reload) w))
      as [[Hc _] | (k & p & value & He & Hf & Hs & Hc & _)].
    + contradiction.
    + exists k, p, value. repeat split; try assumption.
      rewrite Hc in Hne |- *.
      destruct (keeps_after_teardown v || _); [reflexivity |].
      contradiction Hne. reflexivity.
  - intros evs Hw.
    change (cell (view (hook_of v c producer deps reload)
                    (run (hook_of v c producer deps reload) evs w)) <> None).
    rewrite hook_of_view_run.
    apply run_keeps_state_defined. exact Hw.
Qed.

Lemma no_reload_calls_only_on_trigger_witness :
  timers (run (hook_of PreactSignal preact_component always_fails
                       (Some [JNumber 1]) (Some 0))
              [Mount; Settle 0; Tick 5000; Refetch; DepsChange; Unmount;
               Mount; Refetch]
              (initial (hook_of PreactSignal preact_component always_fails
                                (Some [JNumber 1]) (Some 0)))) = [] /\
  calls (run (hook_of PreactSignal preact_component always_fails
                      (Some [JNumber 1]) (Some 0))
             [Mount; Settle 0; Tick 5000; Refetch; DepsChange; Unmount;
              Mount; Refetch]
             (initial (hook_of PreactSignal preact_component always_fails
                               (Some [JNumber 1]) (Some 0)))) = 4%nat.
Proof.
  apply (no_reload_calls_only_on_trigger PreactSignal preact_component
           always_fails [JNumber 1] (Some 0)
           [Mount; Settle 0; Tick 5000; Refetch; DepsChange; Unmount;
            Mount; Refetch] eq_refl eq_refl).
Defined.

Lemma automatic_path_one_outstanding_witness :
  (outstanding
     (run (hook_of PreactSignal preact_component fails_once
                   (Some [JNumber 1]) (Some 1000%Z))
          (Mount :: [Settle 0; Render; Tick 1000%Z; Settle 1; Unmount;
                     Tick 1000%Z])
          (initial (hook_of PreactSignal preact_component fails_once
                            (Some [JNumber 1]) (Some 1000%Z)))) <= 1)%nat.
Proof.
  apply (automatic_path_one_outstanding PreactSignal preact_component
           fails_once [JNumber 1] (Some 1000)
           [Settle 0; Render; Tick 1000; Settle 1; Unmount; Tick 1000]
           eq_refl).
Defined.

Lemma rejected_call_ends_retries_witness :
  timers (run (hook_of ReactState react_component rejects_third
                       (Some [JNumber 1]) (Some 1000))
              ((Mount :: [Settle 0; Tick 1000; Settle 1; Tick 1000])
                 ++ Settle 2 :: [Tick 60000; Render; Unmount])
              (initial (hook_of ReactState react_component rejects_third
                                (Some [JNumber 1]) (Some 1000)))) = [] /\
  calls (run (hook_of ReactState react_component rejects_third
                      (Some [JNumber 1]) (Some 1000))
             ((Mount :: [Settle 0; Tick 1000; Settle 1; Tick 1000])
                ++ Settle 2 :: [Tick 60000; Render; Unmount])
             (initial (hook_of ReactState react_component rejects_third
                               (Some [JNumber 1]) (Some 1000)))) =
    3%nat.
Proof.
  destruct (rejected_call_ends_retries ReactState react_component
              rejects_third [JNumber 1] (Some 1000)
              [Settle 0; Tick 1000; Settle 1; Tick 1000]
              [Tick 60000; Render; Unmount] 2
              (mkPromise 2 (Abrupt (mkError AbortError "aborted")))
              (mkError AbortError "aborted")
              eq_refl eq_refl eq_refl eq_refl)
    as (Ht & _ & Hc & _).
  split; [exact Ht | exact Hc].
Defined.

Lemma state_is_last_published_witness :
  observed (hook_of ReactState react_component always_succeeds None None)
    (run (hook_of ReactState react_component always_succeeds None None)
         [Mount; Refetch; Settle 1; Settle 0]
         (initial (hook_of ReactState react_component always_succeeds
                           None None))) =
  Some (ok_result (JNumber 0)).
Proof.
  apply (state_is_last_published ReactState react_component always_succeeds
           None None [Mount; Refetch; Settle 1; Settle 0]).
  right. reflexivity.
Defined.


Lemma state_changes_only_on_fulfilment_witness :
  (exists k p value,
     Settle 0 = Settle k /\
     find_promise k
       (pending
          (run (hook_of PreactState preact_component always_succeeds
                        (Some []) None) [Mount]
               (initial (hook_of PreactState preact_component
                                 always_succeeds (Some []) None))))
       = Some p /\
     settlement p = Normal value /\
     observed (hook_of PreactState preact_component always_succeeds
                       (Some []) None)
       (step (hook_of PreactState preact_component always_succeeds
                      (Some []) None) (Settle 0)
          (run (hook_of PreactState preact_component always_succeeds
                        (Some []) None) [Mount]
               (initial (hook_of PreactState preact_component
                                 always_succeeds (Some []) None))))
       = Some value) /\
  observed (hook_of PreactState preact_component always_succeeds
                    (Some []) None)
    (run (hook_of PreactState preact_component always_succeeds
                  (Some []) None)
         [DepsChange; Unmount; Tick 100]
         (run (hook_of PreactState preact_component always_succeeds
                       (Some []) None) [Mount; Settle 0]
              (initial (hook_of PreactState preact_component
                                always_succeeds (Some []) None))))
    <> None.
Proof.
  split.
  - apply (proj1 (state_changes_only_on_fulfilment PreactState
                    preact_component always_succeeds (Some []) None
                    (run (hook_of PreactState preact_component
                                  always_succeeds (Some []) None) [Mount]
                         (initial (hook_of PreactState preact_component
                                           always_succeeds (Some []) None))))
             (Settle 0)).
    discriminate.
  - apply (proj2 (state_changes_only_on_fulfilment PreactState
                    preact_component always_succeeds (Some []) None
                    (run (hook_of PreactState preact_component
                                  always_succeeds (Some []) None)
                         [Mount; Settle 0]
                         (initial (hook_of PreactState preact_component
                                           always_succeeds (Some []) None))))
             [DepsChange; Unmount; Tick 100]).
    discriminate.
Defined.
